(** * The property-finding agent of [ai_real_estate_agent.py]

    A shallow embedding of [PropertyFindingAgent.find_properties] and of the
    Python values it manipulates, followed by the properties of the
    category/type mapper, the URL and prompt builders, the normalisation of
    the extraction response and the two-stage pipeline; then of [main],
    the page script that builds the agent from the API keys and runs the
    search on a click.

    Modelling conventions.
    - A Python [str] is a [string] of bytes (the UTF-8 encoding of the text).
      [str.lower] and [repr] are defined here on the ASCII characters; what
      they make of a run of non-ASCII characters is read in the Unicode
      tables of the interpreter, which is a parameter ([Py.interpreter]).
    - A Python [int] is a [Z]; an [int] parameter defaulting to [None] is an
      [option Z].  [max_price] is annotated [float] and the form passes the
      [int] of an integer number input: the builders take a price of any
      type with a text ([Py.Formattable]), an [int] ([Z]), a [float] or
      either ([Py.number]); the text of a [float] is the interpreter's.
    - A JSON-like object (the extraction response) is a [Py.value]; a [dict]
      is an association list in insertion order, since it is printed.
    - The two remote services are fields of the agent record; every call to
      them and every [print] is recorded in a trace, and an exception ends
      the run with the trace reached so far.
    - A run of the page reads the environment and the values of its
      widgets as inputs, finds and leaves a session state, and shows a list
      of elements; the constructor of the agent and the text of an
      exception are given by the runtime. *)

From Stdlib Require Import String Ascii List ZArith Lia Bool.
From Stdlib Require Import DecimalString DecimalZ DecimalPos SpecFloat.
Import ListNotations.

Local Open Scope list_scope.
Local Open Scope string_scope.

(** ** Strings *)

Module Str.

(** [strip_prefix p s] is the rest of [s] after its prefix [p]. *)
Fixpoint strip_prefix (p s : string) : option string :=
  match p, s with
  | EmptyString, _ => Some s
  | String _ _, EmptyString => None
  | String x p', String y s' =>
      if Ascii.eqb x y then strip_prefix p' s' else None
  end.

(** [find sub s] splits [s] around the first occurrence of [sub]. *)
Fixpoint find (sub s : string) : option (string * string) :=
  match strip_prefix sub s with
  | Some rest => Some ("", rest)
  | None =>
      match s with
      | EmptyString => None
      | String c s' =>
          match find sub s' with
          | Some (a, b) => Some (String c a, b)
          | None => None
          end
      end
  end.

(** Python's [sub in s]. *)
Definition contains (s sub : string) : bool :=
  match find sub s with Some _ => true | None => false end.

Definition Contains (s sub : string) : Prop :=
  exists a b, s = a ++ sub ++ b.

(** The strings of [hs] occur in [s] one after the other, without overlap. *)
Fixpoint InOrder (hs : list string) (s : string) : Prop :=
  match hs with
  | [] => True
  | h :: hs' => exists a b, s = a ++ h ++ b /\ InOrder hs' b
  end.

(** A checker for [InOrder]: each string is searched after the first
    occurrence of the one before. *)
Fixpoint in_order (hs : list string) (s : string) : bool :=
  match hs with
  | [] => true
  | h :: hs' =>
      match find h s with
      | Some (_, b) => in_order hs' b
      | None => false
      end
  end.

(** The string with [f] applied to each character. *)
Fixpoint map (f : ascii -> ascii) (s : string) : string :=
  match s with
  | EmptyString => EmptyString
  | String c s' => String (f c) (map f s')
  end.

(** Number of occurrences of the character [c]. *)
Fixpoint count (c : ascii) (s : string) : nat :=
  match s with
  | EmptyString => 0
  | String x s' => (if Ascii.eqb x c then 1 else 0) + count c s'
  end.

End Str.

(** ** Python values and the builtins the program uses *)

Module Py.

(** The JSON-like values an extraction response is made of (numbers are
    the integers). *)
#[local] Set Warnings "-register-all".
Inductive value : Type :=
| None
| Bool (b : bool)
| Int (z : Z)
| Str (s : string)
| List (items : list value)
| Dict (items : list (string * value)).

(** Truth value testing, as done by [if x:] and [and]. *)
Definition truthy (v : value) : bool :=
  match v with
  | None => false
  | Bool b => b
  | Int z => negb (z =? 0)%Z
  | Str s => negb (s =? "")
  | List items => match items with [] => false | _ => true end
  | Dict items => match items with [] => false | _ => true end
  end.

Definition isinstance_dict (v : value) : bool :=
  match v with Dict _ => true | _ => false end.

(** [str(n)] for an [int]. *)
Definition str_int (z : Z) : string := NilZero.string_of_int (Z.to_int z).

(** [str(x)] for an [int] parameter that may be [None]. *)
Definition str_opt_int (o : option Z) : string :=
  match o with
  | Some z => str_int z
  | Datatypes.None => "None"
  end.

(** [if x:] for an [int] parameter that may be [None]. *)
Definition truthy_opt_int (o : option Z) : bool :=
  match o with
  | Some z => negb (z =? 0)%Z
  | Datatypes.None => false
  end.

(** What the interpreter brings and the program does not contain: the
    Unicode tables and the printing of floats.  A run of bytes above 127 is
    the UTF-8 text of non-ASCII characters; [lower_run before run after] is
    what [str.lower] makes of such a run between the texts [before] and
    [after] (the lower case of a character may depend on its neighbours),
    [repr_run run] is what [repr] makes of it (printable characters as they
    are, the others escaped), and [float_repr x] is [str(x)] for a float. *)
Class interpreter : Type := {
  lower_run : string -> string -> string -> string;
  repr_run : string -> string;
  float_repr : spec_float -> string
}.

(** A Python [float], a binary64 value. *)
Record float : Type := { binary64 : spec_float }.

(** [format(x, "")], what an f-string field [{x}] puts for [x]: the method
    of the type of [x]. *)
Class Formattable (A : Type) : Type := format : A -> string.

#[global] Instance int_format : Formattable Z := str_int.

#[global] Instance float_format {U : interpreter} : Formattable float :=
  fun x => float_repr (binary64 x).

(** A number as the annotation [float] admits it: an [int] or a [float]. *)
Inductive number : Type :=
| Integer (z : Z)
| Real (x : float).

#[global] Instance number_format {U : interpreter} : Formattable number :=
  fun n =>
    match n with
    | Integer z => format z
    | Real x => format x
    end.

Definition is_ascii_char (c : ascii) : bool := (nat_of_ascii c <? 128)%nat.

Fixpoint is_ascii (s : string) : bool :=
  match s with
  | EmptyString => true
  | String c s' => is_ascii_char c && is_ascii s'
  end.

(** [str.lower]: an ASCII letter A-Z becomes a-z and any other ASCII
    character stays, wherever it stands; the runs of non-ASCII characters
    are lowered by the interpreter. *)
Definition lower_char (c : ascii) : ascii :=
  let n := nat_of_ascii c in
  if (65 <=? n)%nat && (n <=? 90)%nat then ascii_of_nat (n + 32) else c.

Definition lower_flush {U : interpreter} (before run after : string) : string :=
  match run with
  | EmptyString => EmptyString
  | String _ _ => lower_run before run after
  end.

(** The lower case of [s], which follows the text [before] and the pending
    non-ASCII run [run]. *)
Fixpoint lower_from {U : interpreter} (before run s : string) : string :=
  match s with
  | EmptyString => lower_flush before run EmptyString
  | String c s' =>
      if is_ascii_char c then
        lower_flush before run s
        ++ String (lower_char c)
             (lower_from (before ++ run ++ String c EmptyString) EmptyString s')
      else lower_from before (run ++ String c EmptyString) s'
  end.

Definition lower {U : interpreter} (s : string) : string :=
  lower_from EmptyString EmptyString s.

(** [repr] of a [str]: single quotes, unless the text has a single quote
    and no double quote; backslash escapes for the quote, the backslash
    and the ASCII control characters; the runs of non-ASCII characters
    are printed by the interpreter. *)
Definition squote : ascii := "'"%char.
Definition dquote : ascii := ascii_of_nat 34.
Definition backslash : ascii := "\"%char.

Fixpoint has_char (c : ascii) (s : string) : bool :=
  match s with
  | EmptyString => false
  | String x s' => Ascii.eqb x c || has_char c s'
  end.

Definition hex_digit (n : nat) : ascii :=
  match String.get n "0123456789abcdef" with
  | Some c => c
  | Datatypes.None => "0"%char
  end.

Definition escape_char (quote c : ascii) : string :=
  let n := nat_of_ascii c in
  if Ascii.eqb c quote || Ascii.eqb c backslash then
    String backslash (String c "")
  else if (n =? 9)%nat then String backslash "t"
  else if (n =? 10)%nat then String backslash "n"
  else if (n =? 13)%nat then String backslash "r"
  else if (n <? 32)%nat || (n =? 127)%nat then
    String backslash
      (String "x" (String (hex_digit (n / 16)) (String (hex_digit (n mod 16)) "")))
  else String c "".

Definition repr_flush {U : interpreter} (run : string) : string :=
  match run with
  | EmptyString => EmptyString
  | String _ _ => repr_run run
  end.

Fixpoint escape {U : interpreter} (quote : ascii) (run s : string) : string :=
  match s with
  | EmptyString => repr_flush run
  | String c s' =>
      if is_ascii_char c then
        repr_flush run ++ escape_char quote c ++ escape quote EmptyString s'
      else escape quote (run ++ String c EmptyString) s'
  end.

Definition repr_str {U : interpreter} (s : string) : string :=
  let quote :=
    if has_char squote s && negb (has_char dquote s) then dquote else squote in
  String quote (escape quote "" s ++ String quote "").

(** [repr] of a value: the text [print] and an f-string show for a
    value inside a list or a dict. *)
Fixpoint repr {U : interpreter} (v : value) : string :=
  match v with
  | None => "None"
  | Bool true => "True"
  | Bool false => "False"
  | Int z => str_int z
  | Str s => repr_str s
  | List items =>
      "[" ++
      (fix elems (l : list value) : string :=
         match l with
         | [] => ""
         | x :: l' =>
             match l' with
             | [] => repr x
             | _ :: _ => repr x ++ ", " ++ elems l'
             end
         end) items ++ "]"
  | Dict items =>
      "{" ++
      (fix pairs (l : list (string * value)) : string :=
         match l with
         | [] => ""
         | (k, x) :: l' =>
             match l' with
             | [] => repr_str k ++ ": " ++ repr x
             | _ :: _ => repr_str k ++ ": " ++ repr x ++ ", " ++ pairs l'
             end
         end) items ++ "}"
  end.

(** [str(v)], which an f-string field [{v}] and [print(v)] use. *)
Definition str {U : interpreter} (v : value) : string :=
  match v with
  | Str s => s
  | _ => repr v
  end.

(** Lookup of a key in the items of a [dict]. *)
Fixpoint lookup (key : string) (items : list (string * value)) : option value :=
  match items with
  | [] => Datatypes.None
  | (k, v) :: items' => if k =? key then Some v else lookup key items'
  end.

(** [d.get(key, default)] on the items of a [dict]. *)
Definition get (items : list (string * value)) (key : string) (default : value)
  : value :=
  match lookup key items with
  | Some v => v
  | Datatypes.None => default
  end.

End Py.


(** ** Exceptions, effects and the agent *)

Inductive exn : Type :=
| KeyError (key : string)
| AttributeError (name : string)
| ServiceError (message : string).

Inductive outcome (A : Type) : Type :=
| Return (a : A)
| Raise (e : exn).
Arguments Return {A} a.
Arguments Raise {A} e.

(** What a run does to the outside world, in the order it does it. *)
Inductive event : Type :=
| Print (line : string)
| FirecrawlExtract (urls : list string) (prompt : string)
| AgentRun (message : string).

Definition is_remote_call (e : event) : bool :=
  match e with
  | Print _ => false
  | FirecrawlExtract _ _ | AgentRun _ => true
  end.

(** A computation extends the trace and returns a value or raises. *)
Definition M (A : Type) : Type := list event -> outcome A * list event.

Definition ret {A} (a : A) : M A := fun t => (Return a, t).

Definition bind {A B} (m : M A) (f : A -> M B) : M B :=
  fun t =>
    match m t with
    | (Return a, t') => f a t'
    | (Raise e, t') => (Raise e, t')
    end.

Definition lift {A} (o : outcome A) : M A := fun t => (o, t).

Declare Scope agent_scope.
Delimit Scope agent_scope with agent.
Notation "x <- m ;; k" := (bind m (fun x => k))
  (at level 61, m at next level, right associativity) : agent_scope.
Notation "m ;; k" := (bind m (fun _ => k))
  (at level 61, right associativity) : agent_scope.
Local Open Scope agent_scope.

Definition print (line : string) : M unit :=
  fun t => (Return tt, t ++ [Print line])%list.

(** The agent holds the two service clients.  [firecrawl] answers an
    extraction request (the URLs and the prompt; the schema argument is a
    constant of the program) with a response or an exception, [agent]
    answers a message with the content of its reply or an exception. *)
Record PropertyFindingAgent : Type := {
  agent : string -> outcome string;
  firecrawl : list string -> string -> outcome Py.value
}.

Definition firecrawl_extract (self : PropertyFindingAgent)
  (urls : list string) (prompt : string) : M Py.value :=
  fun t => (firecrawl self urls prompt, t ++ [FirecrawlExtract urls prompt])%list.

Definition agent_run (self : PropertyFindingAgent) (message : string) : M string :=
  fun t => (agent self message, t ++ [AgentRun message])%list.

(** ** [find_properties], piece by piece *)

(** The dict literal of lines 67-74. *)
Definition property_map : list (string * Py.value) :=
  [("Residential",
    Py.Dict [("HDB", Py.Str "H"); ("Condo", Py.Str "N"); ("Landed", Py.Str "L")]);
   ("Commercial", Py.Str "com")].

(** Lines 76-78: [pro_type = property_map[property_category]], then the
    [.get] with default ["H"] when the entry is itself a dict. *)
Definition pro_type (property_category property_type : string)
  : outcome Py.value :=
  match Py.lookup property_category property_map with
  | None => Raise (KeyError property_category)
  | Some (Py.Dict types) => Return (Py.get types property_type (Py.Str "H"))
  | Some code => Return code
  end.

(** Lines 79-85: the list of the one search URL. *)
Definition urls {U : Py.interpreter} {P : Type} {F : Py.Formattable P}
  (formatted_location : string) (max_price : P)
  (bedrooms min_size max_size : option Z) (pro_type : Py.value) : list string :=
  ["https://www.propertyguru.com.sg/property-for-sale?listingType=sale&page=1&isCommercial=false&maxPrice=" ++
   Py.format max_price ++
   "&hdbEstate=1&_freetextDisplay=" ++
   formatted_location ++
   "&bedrooms=" ++
   Py.str_opt_int bedrooms ++
   "&minSize=" ++
   Py.str_opt_int min_size ++
   "&maxSize=" ++
   Py.str_opt_int max_size ++
   "&propertyTypeGroup=" ++
   Py.str pro_type].
Arguments urls {U P F} formatted_location max_price%_Z.

(** Lines 87-91. *)
Definition property_type_prompt (property_type : string) : Py.value :=
  Py.get [("HDB", Py.Str "HDB Flats");
          ("Condo", Py.Str "Condominiums");
          ("Landed", Py.Str "Landed Houses")]
         property_type (Py.Str "HDB Flats").

(** Lines 93-103: the f-string the prompt starts from. *)
Definition prompt_template {U : Py.interpreter} {P : Type} {F : Py.Formattable P}
  (property_category : string)
  (property_type_prompt : Py.value) (city : string) (max_price : P) : string :=
  "Extract ONLY 10 OR LESS different " ++
  property_category ++
  " " ++
  Py.str property_type_prompt ++
  " from " ++
  city ++
  " that cost less than " ++
  Py.format max_price ++
  " SGD.
        
        Requirements:
        - Property Category: " ++
  property_category ++
  " properties only
        - Property Type: " ++
  Py.str property_type_prompt ++
  " only
        - Location: " ++
  city ++
  "
        - Maximum Price: " ++
  Py.format max_price ++
  " SGD
        - Include complete property details with exact location
        - IMPORTANT: Return data for at least 3 different properties. MAXIMUM 10.
        - Format as a list of properties with their respective details
        ".
Arguments prompt_template {U P F} property_category property_type_prompt city max_price%_Z.

(** Lines 105-110: the three guarded [prompt += ...]. *)
Definition prompt {U : Py.interpreter} {P : Type} {F : Py.Formattable P}
  (property_category : string) (property_type_prompt : Py.value)
  (city : string) (max_price : P) (min_size max_size bedrooms : option Z)
  : string :=
  let prompt :=
    prompt_template property_category property_type_prompt city max_price in
  let prompt :=
    if Py.truthy_opt_int min_size then
      prompt ++ "
- Minimum Size: " ++ Py.str_opt_int min_size ++ " sq ft"
    else prompt in
  let prompt :=
    if Py.truthy_opt_int max_size then
      prompt ++ "
- Maximum Size: " ++ Py.str_opt_int max_size ++ " sq ft"
    else prompt in
  let prompt :=
    if Py.truthy_opt_int bedrooms then
      prompt ++ "
- Number of Bedrooms: " ++ Py.str_opt_int bedrooms
    else prompt in
  prompt.
Arguments prompt {U P F} property_category property_type_prompt city max_price%_Z.

(** Lines 122-125: the records taken from the response of the extraction
    service. *)
Definition properties (raw_response : Py.value) : outcome Py.value :=
  match raw_response with
  | Py.Dict response =>
      if Py.truthy (Py.get response "success" Py.None) then
        match Py.lookup "data" response with
        | None => Raise (KeyError "data")
        | Some (Py.Dict data) => Return (Py.get data "properties" (Py.List []))
        | Some _ => Raise (AttributeError "get")
        end
      else Return (Py.List [])
  | _ => Return (Py.List [])
  end.

(** Lines 131-172: the message sent to the completion service. *)
Definition analysis_message {U : Py.interpreter} {P : Type} {F : Py.Formattable P}
  (properties : Py.value)
  (property_category property_type : string) (max_price : P) : string :=
  "As a real estate expert, analyze these properties and market trends:

            Properties Found in json format:
            " ++
  Py.str properties ++
  "

            **IMPORTANT INSTRUCTIONS:**
            1. ONLY analyze properties from the above JSON data that match the user's requirements:
               - Property Category: " ++
  property_category ++
  "
               - Property Type: " ++
  property_type ++
  "
               - Maximum Price: " ++
  Py.format max_price ++
  " SGD
            2. DO NOT create new categories or property types
            3. From the matching properties, select 5-6 properties with prices closest to " ++
  Py.format max_price ++
  " SGD

            Please provide your analysis in this format:
            
            🏠 SELECTED PROPERTIES
            • List only 5-6 best matching properties with prices closest to " ++
  Py.format max_price ++
  " SGD
            • For each property include:
              - Name and Location
              - Price (with value analysis)
              - Key Features
              - Pros and Cons

            💰 BEST VALUE ANALYSIS
            • Compare the selected properties based on:
              - Price per sq ft
              - Location advantage
              - Amenities offered

            📍 LOCATION INSIGHTS
            • Specific advantages of the areas where selected properties are located

            💡 RECOMMENDATIONS
            • Top 3 properties from the selection with reasoning
            • Investment potential
            • Points to consider before purchase

            🤝 NEGOTIATION TIPS
            • Property-specific negotiation strategies

            Format your response in a clear, structured way using the above sections.
            ".
Arguments analysis_message {U P F} properties property_category property_type max_price%_Z.

(** Lines 53-175.  The defaults of the source ("Residential", "HDB" and
    [None] for the three filters) are passed by the caller. *)
Definition find_properties {U : Py.interpreter} {P : Type} {F : Py.Formattable P}
  (self : PropertyFindingAgent) (city : string)
  (max_price : P) (property_category property_type : string)
  (min_size max_size bedrooms : option Z) : M string :=
  let formatted_location := Py.lower city in
  pro_type <- lift (pro_type property_category property_type) ;;
  let urls := urls formatted_location max_price bedrooms min_size max_size pro_type in
  print ("URLS: " ++ Py.str (Py.List (map Py.Str urls))) ;;
  let property_type_prompt := property_type_prompt property_type in
  let prompt :=
    prompt property_category property_type_prompt city max_price
           min_size max_size bedrooms in
  raw_response <- firecrawl_extract self urls prompt ;;
  print ("Raw Property Response: " ++ Py.str raw_response) ;;
  properties <- lift (properties raw_response) ;;
  print ("Processed Properties: " ++ Py.str properties) ;;
  analysis <-
    agent_run self
      (analysis_message properties property_category property_type max_price) ;;
  ret analysis.
Arguments find_properties {U P F} self city max_price%_Z.

(** A run from the empty trace. *)
Definition run {A} (m : M A) : outcome A * list event := m [].

(** ** The request of a run and the vocabulary of the properties *)

Definition newline : ascii := ascii_of_nat 10.

(** The URLs, the prompt and the first printed line of a run whose category
    is mapped to [code]. *)
Definition request_urls {U : Py.interpreter} {P : Type} {F : Py.Formattable P}
  (city : string) (max_price : P)
  (min_size max_size bedrooms : option Z) (code : Py.value) : list string :=
  urls (Py.lower city) max_price bedrooms min_size max_size code.
Arguments request_urls {U P F} city max_price%_Z.

Definition request_prompt {U : Py.interpreter} {P : Type} {F : Py.Formattable P}
  (city : string) (max_price : P)
  (property_category property_type : string)
  (min_size max_size bedrooms : option Z) : string :=
  prompt property_category (property_type_prompt property_type) city max_price
         min_size max_size bedrooms.
Arguments request_prompt {U P F} city max_price%_Z.

Definition urls_line {U : Py.interpreter} {P : Type} {F : Py.Formattable P}
  (city : string) (max_price : P)
  (min_size max_size bedrooms : option Z) (code : Py.value) : string :=
  "URLS: " ++
  Py.str (Py.List (map Py.Str
                     (request_urls city max_price min_size max_size bedrooms code))).
Arguments urls_line {U P F} city max_price%_Z.

(** The line the prompt gets for an optional filter: none when the filter
    fails the truth test, that is when it is [None] or zero. *)
Definition optional_line (label : string) (filter : option Z) (suffix : string)
  : string :=
  if Py.truthy_opt_int filter then
    String newline ("- " ++ label ++ ": " ++ Py.str_opt_int filter ++ suffix)
  else "".

Definition lines_added (filter : option Z) : nat :=
  if Py.truthy_opt_int filter then 1 else 0.

(** A filter is present when the caller supplied a number, zero included. *)
Definition present (filter : option Z) : nat :=
  match filter with Some _ => 1 | None => 0 end.

(** The lower-case letter of a capital letter of the alphabet, and any
    other character as it is. *)
Definition lowercase_letter (c : ascii) : ascii :=
  match Str.find (String c "") "ABCDEFGHIJKLMNOPQRSTUVWXYZ" with
  | Some (before, _) =>
      match String.get (String.length before) "abcdefghijklmnopqrstuvwxyz" with
      | Some letter => letter
      | None => c
      end
  | None => c
  end.

(** The integer a decimal numeral stands for. *)
Definition decimal_value (text : string) : option Z :=
  option_map Z.of_int (NilZero.int_of_string text).

(** The five section headers, as the message template writes them. *)
Definition section_headers : list string :=
  ["🏠 SELECTED PROPERTIES";
   "💰 BEST VALUE ANALYSIS";
   "📍 LOCATION INSIGHTS";
   "💡 RECOMMENDATIONS";
   "🤝 NEGOTIATION TIPS"].

(** The names the specification gives to the five sections. *)
Definition section_names : list string :=
  ["Selected Properties";
   "Best Value Analysis";
   "Location Insights";
   "Recommendations";
   "Negotiation Tips"].

(** A header without its pictogram (four bytes and a space). *)
Definition header_text (header : string) : string :=
  String.substring 5 (String.length header - 5) header.

Definition is_agent_run (e : event) : bool :=
  match e with AgentRun _ => true | _ => false end.

(** ** The page: [main] *)

Module App.

(** What one run of the page script reads: the two environment variables
    and the values its widgets return. *)
Record inputs : Type := {
  environ_firecrawl_key : option string;
  environ_openai_key : option string;
  model_id : string;
  typed_firecrawl_key : string;
  typed_openai_key : string;
  city : string;
  property_category : string;
  max_price : Z;
  property_type : string;
  min_size : option Z;
  max_size : option Z;
  bedrooms : option Z;
  start_search : bool
}.

(** [st.session_state], which outlives a run: an entry is [None] until a
    run assigns it. *)
Record session_state : Type := {
  session_model_id : option string;
  session_firecrawl_key : option string;
  session_openai_key : option string;
  session_property_agent : option PropertyFindingAgent
}.

(** What the page relies on from outside: the constructor of the agent
    (Firecrawl key, OpenAI key, model id) and the text [str(e)] of an
    exception. *)
Record runtime : Type := {
  new_agent : string -> string -> string -> PropertyFindingAgent;
  exception_text : exn -> string
}.

(** The calls that put something on the page, in the order they are made.
    A widget is recorded by its label, an output by its text; the effects
    of a search are recorded as they are.  The containers (sidebar,
    columns) only place elements and are not recorded. *)
Inductive element : Type :=
| PageConfig (page_title : string)
| Title (text : string)
| Subheader (text : string)
| Divider
| Info (text : string)
| Selectbox (label : string)
| TextInput (label : string)
| NumberInput (label : string)
| Button (label : string)
| Spinner (text : string)
| Error (text : string)
| Success (text : string)
| Markdown (body : string)
| Expander (label : string)
| Effect (e : event).

(** [not key] and [key and ...] for a value of [os.environ.get]. *)
Definition truthy_opt_str (key : option string) : bool :=
  match key with
  | Some text => negb (text =? "")
  | None => false
  end.

(** Lines 184-226, the sidebar: the model, the keys, and the agent stored
    in the session when both keys are there. *)
Definition sidebar (rt : runtime) (f : inputs) (s : session_state)
  : session_state * list element :=
  let out := [Title "🔑 API Configuration"; Subheader "🤖 Model Selection"; Selectbox "Choose OpenAI Model"] in
  let s :=
    {| session_model_id := Some (model_id f);
       session_firecrawl_key := session_firecrawl_key s;
       session_openai_key := session_openai_key s;
       session_property_agent := session_property_agent s |} in
  let firecrawl_key := environ_firecrawl_key f in
  let openai_key := environ_openai_key f in
  let out :=
    if negb (truthy_opt_str firecrawl_key) || negb (truthy_opt_str openai_key)
    then (out ++ [Divider; Subheader "🔐 API Keys"])%list
    else out in
  let '(firecrawl_key, out) :=
    if negb (truthy_opt_str firecrawl_key)
    then (Some (typed_firecrawl_key f), (out ++ [TextInput "Firecrawl API Key"])%list)
    else (firecrawl_key, out) in
  let '(openai_key, out) :=
    if negb (truthy_opt_str openai_key)
    then (Some (typed_openai_key f), (out ++ [TextInput "OpenAI API Key"])%list)
    else (openai_key, out) in
  match firecrawl_key, openai_key with
  | Some firecrawl_text, Some openai_text =>
      if truthy_opt_str firecrawl_key && truthy_opt_str openai_key then
        ({| session_model_id := session_model_id s;
            session_firecrawl_key := firecrawl_key;
            session_openai_key := openai_key;
            session_property_agent :=
              Some (new_agent rt firecrawl_text openai_text (model_id f)) |},
         out)
      else (s, out)
  | _, _ => (s, out)
  end.

(** Lines 228-298: the heading and the widgets of the search form. *)
Definition form : list element :=
  [Title "🏠AI Real Estate Agent for Singapore 🇸🇬 property market";
   Info "
        Welcome to the AI Real Estate Agent! 
        Enter your search criteria below to get property recommendations 
        and location insights.
        ";
   TextInput "City";
   Selectbox "Property Category";
   NumberInput "Maximum Price (in SGD)";
   Selectbox "Property Type";
   NumberInput "Minimum Size (in sq ft)";
   NumberInput "Maximum Size (in sq ft)";
   NumberInput "Number of Bedrooms";
   Button "🔍 Start Search"].

(** Line 327: the class defines [__init__] and [find_properties] only, so
    the lookup of this attribute on the agent raises. *)
Definition get_location_trends (self : PropertyFindingAgent) (city : string)
  : outcome string :=
  Raise (AttributeError "get_location_trends").

(** Line 335, the handler of [except Exception as e]. *)
Definition error_occurred (rt : runtime) (e : exn) : element :=
  Error ("❌ An error occurred: " ++ exception_text rt e).

(** Lines 299-335: what a click on the button does. *)
Definition search {U : Py.interpreter} (rt : runtime) (f : inputs)
  (s : session_state)
  : list element :=
  match session_property_agent s with
  | None => [Error "⚠️ Please enter your API keys in the sidebar first!"]
  | Some property_agent =>
      if city f =? "" then [Error "⚠️ Please enter a city name!"]
      else
        let '(result, trace) :=
          run (find_properties property_agent (city f) (max_price f)
                 (property_category f) (property_type f)
                 (min_size f) (max_size f) (bedrooms f)) in
        let out := (Spinner "🔍 Searching for properties..." :: map Effect trace)%list in
        match result with
        | Raise e => (out ++ [error_occurred rt e])%list
        | Return property_results =>
            let out :=
              (out ++ [Success "✅ Property search completed!";
                       Subheader "🏘️ Property Recommendations";
                       Markdown property_results;
                       Divider;
                       Spinner "📊 Analyzing location trends..."])%list in
            match get_location_trends property_agent (city f) with
            | Raise e => (out ++ [error_occurred rt e])%list
            | Return location_trends =>
                (out ++ [Success "✅ Location analysis completed!";
                         Expander "📈 Location Trends Analysis of the city";
                         Markdown location_trends])%list
            end
        end
  end.

(** Lines 177-335: one run of the page, from the session it finds to the
    session it leaves and the elements it shows. *)
Definition main {U : Py.interpreter} (rt : runtime) (f : inputs)
  (s : session_state)
  : session_state * list element :=
  let '(s, side) := sidebar rt f s in
  let out := (PageConfig "Real Estate Agent for Singapore 🇸🇬 property market" :: side ++ form)%list in
  if start_search f then (s, (out ++ search rt f s)%list) else (s, out).

(** The elements a run shows only when a search was started. *)
Definition is_search_element (x : element) : bool :=
  match x with
  | Spinner _ | Error _ | Success _ | Markdown _ | Expander _ | Effect _ => true
  | _ => false
  end.

Definition is_effect (x : element) : bool :=
  match x with Effect _ => true | _ => false end.

(** The elements every run shows, click or no click. *)
Definition page (rt : runtime) (f : inputs) (s : session_state) : list element :=
  (PageConfig "Real Estate Agent for Singapore 🇸🇬 property market"
   :: snd (sidebar rt f s) ++ form)%list.

(** The key a run works with: the environment variable when it is set and
    not empty, the text typed in the sidebar otherwise. *)
Definition key_in_use (environ : option string) (typed : string) : string :=
  match environ with
  | Some key => if key =? "" then typed else key
  | None => typed
  end.

Definition empty_session : session_state :=
  {| session_model_id := None;
     session_firecrawl_key := None;
     session_openai_key := None;
     session_property_agent := None |}.

End App.

(** ** Sample interpreter, agents and responses *)

(** The concrete runs below are on ASCII inputs, on which every interpreter
    gives the same texts.  They are computed with an interpreter that
    leaves the non-ASCII runs as they are and writes no float. *)
#[global] Instance plain_interpreter : Py.interpreter :=
  {| Py.lower_run := fun _ run _ => run;
     Py.repr_run := fun run => run;
     Py.float_repr := fun _ => "" |}.

(** An agent whose services always give the same answers. *)
Definition constant_agent (response : outcome Py.value) (reply : outcome string)
  : PropertyFindingAgent :=
  {| agent := fun _ => reply; firecrawl := fun _ _ => response |}.

Definition failed_response : Py.value :=
  Py.Dict [("success", Py.Bool false)].

Definition sample_record (name : string) : Py.value :=
  Py.Dict [("Building_name", Py.Str name);
           ("Property_type", Py.Str "HDB");
           ("location_address", Py.Str "Punggol Field, Singapore");
           ("Price", Py.Str "S$ 480,000");
           ("Description", Py.Str "4-room flat near the waterway")].

(** A successful envelope carrying [records]. *)
Definition response_with (records : list Py.value) : Py.value :=
  Py.Dict [("success", Py.Bool true);
           ("data", Py.Dict [("properties", Py.List records)]);
           ("status", Py.Str "completed");
           ("expiresAt", Py.Str "2025-01-01T00:00:00.000Z")].

(** The extraction call times out; the completion service is up. *)
Definition timed_out_agent : PropertyFindingAgent :=
  constant_agent (Raise (ServiceError "timed out")) (Return "REPORT").

(** The extraction service answers with success = false. *)
Definition failed_extraction_agent : PropertyFindingAgent :=
  constant_agent (Return failed_response) (Return "REPORT").

(** The search of the end-to-end scenario, run by the agent [self]. *)
Definition punggol_search (self : PropertyFindingAgent)
  : outcome string * list event :=
  run (find_properties self "Punggol" 500000 "Residential" "HDB"
         None None None).

Definition punggol_template : string :=
  prompt_template "Residential" (property_type_prompt "HDB") "Punggol" 500000.

Definition eleven_records : list Py.value :=
  map sample_record
    ["Block 1"; "Block 2"; "Block 3"; "Block 4"; "Block 5"; "Block 6";
     "Block 7"; "Block 8"; "Block 9"; "Block 10"; "Block 11"].


(** ** Sample runs of the page *)

(** A runtime whose constructor always gives the agent [self]; the text of
    an attribute error is the one Python gives for the agent object. *)
Definition sample_runtime (self : PropertyFindingAgent) : App.runtime :=
  {| App.new_agent := fun _ _ _ => self;
     App.exception_text := fun e =>
       match e with
       | KeyError key => Py.repr_str key
       | AttributeError name =>
           "'PropertyFindingAgent' object has no attribute '" ++ name ++ "'"
       | ServiceError message => message
       end |}.

(** The form filled for HDB flats under 500000 SGD, with both keys read
    from the environment as [key] and nothing typed in the sidebar. *)
Definition sample_inputs (key : option string) (city : string) (click : bool)
  : App.inputs :=
  {| App.environ_firecrawl_key := key;
     App.environ_openai_key := key;
     App.model_id := "gpt-4o";
     App.typed_firecrawl_key := "";
     App.typed_openai_key := "";
     App.city := city;
     App.property_category := "Residential";
     App.max_price := 500000;
     App.property_type := "HDB";
     App.min_size := None;
     App.max_size := None;
     App.bedrooms := None;
     App.start_search := click |}.

(** ** Facts about strings *)

Module StrFacts.
Import Str.

Lemma append_assoc (a b c : string) : (a ++ b) ++ c = a ++ b ++ c.
Proof. induction a as [|x a IH]; simpl; [reflexivity | now rewrite IH]. Qed.

Lemma append_nil_r (a : string) : a ++ "" = a.
Proof. induction a as [|x a IH]; simpl; [reflexivity | now rewrite IH]. Qed.

Lemma strip_prefix_sound p : forall s r,
  strip_prefix p s = Some r -> s = p ++ r.
Proof.
  induction p as [|x p IH]; intros s r H; simpl in *.
  - now inversion H.
  - destruct s as [|y s]; [discriminate|].
    destruct (Ascii.eqb x y) eqn:E; [|discriminate].
    apply Ascii.eqb_eq in E; subst y. f_equal. now apply IH.
Qed.

Lemma strip_prefix_complete p : forall r, strip_prefix p (p ++ r) = Some r.
Proof.
  induction p as [|x p IH]; intros r; simpl; [reflexivity|].
  now rewrite Ascii.eqb_refl.
Qed.

Lemma find_sound sub : forall s a b,
  find sub s = Some (a, b) -> s = a ++ sub ++ b.
Proof.
  induction s as [|c s IH]; intros a b H; simpl in H.
  - destruct (strip_prefix sub "") eqn:E; [|discriminate].
    inversion H; subst. simpl. now apply strip_prefix_sound.
  - destruct (strip_prefix sub (String c s)) eqn:E.
    + inversion H; subst. simpl. now apply strip_prefix_sound.
    + destruct (find sub s) as [[a' b']|] eqn:F; [|discriminate].
      inversion H; subst. simpl. f_equal. now apply IH.
Qed.

Lemma find_prefix sub r : find sub (sub ++ r) = Some ("", r).
Proof.
  destruct (sub ++ r) eqn:E; simpl; rewrite <- E, strip_prefix_complete;
    reflexivity.
Qed.

Lemma find_complete sub : forall a b, find sub (a ++ sub ++ b) <> None.
Proof.
  induction a as [|c a IH]; intros b.
  - change ("" ++ sub ++ b) with (sub ++ b). now rewrite find_prefix.
  - change (String c a ++ sub ++ b) with (String c (a ++ sub ++ b)).
    simpl. destruct (strip_prefix sub (String c (a ++ sub ++ b)));
      [discriminate|].
    specialize (IH b). destruct (find sub (a ++ sub ++ b)) as [[? ?]|];
      [discriminate | contradiction].
Qed.

Lemma contains_spec s sub : contains s sub = true <-> Contains s sub.
Proof.
  unfold contains, Contains. split.
  - destruct (find sub s) as [[a b]|] eqn:F; [|discriminate].
    intros _. exists a, b. now apply find_sound.
  - intros (a & b & ->). pose proof (find_complete sub a b) as H.
    destruct (find sub (a ++ sub ++ b)); [reflexivity | contradiction].
Qed.

Lemma Contains_mid (a sub b : string) : Contains (a ++ sub ++ b) sub.
Proof. now exists a, b. Qed.

Lemma Contains_left s sub p : Contains s sub -> Contains (p ++ s) sub.
Proof.
  intros (a & b & ->). exists (p ++ a), b. now rewrite append_assoc.
Qed.

Lemma Contains_right s sub p : Contains s sub -> Contains (s ++ p) sub.
Proof.
  intros (a & b & ->). exists a, (b ++ p). now rewrite !append_assoc.
Qed.

Lemma InOrder_left hs : forall s p, InOrder hs s -> InOrder hs (p ++ s).
Proof.
  destruct hs as [|h hs]; simpl; [trivial|].
  intros s p (a & b & -> & H). exists (p ++ a), b.
  split; [now rewrite append_assoc | exact H].
Qed.

Lemma InOrder_cons_app h hs a b :
  InOrder hs b -> InOrder (h :: hs) (a ++ h ++ b).
Proof. intros H. simpl. now exists a, b. Qed.

Lemma in_order_sound hs : forall s, in_order hs s = true -> InOrder hs s.
Proof.
  induction hs as [|h hs IH]; intros s H; simpl in *; [exact I|].
  destruct (find h s) as [[a b]|] eqn:F; [|discriminate].
  exists a, b. split; [now apply find_sound | now apply IH].
Qed.

Lemma InOrder_find_app h hs s a b t :
  find h s = Some (a, b) -> InOrder hs (b ++ t) ->
  InOrder (h :: hs) (s ++ t).
Proof.
  intros F H. apply find_sound in F. subst s. simpl. exists a, (b ++ t).
  split; [now rewrite !append_assoc | exact H].
Qed.

(** Strings found in order stay so when each is replaced by a part of it. *)
Lemma InOrder_parts hs : forall ns s,
  Forall2 Contains hs ns -> InOrder hs s -> InOrder ns s.
Proof.
  induction hs as [|h hs IH]; intros ns s F H;
    inversion F as [|h' n hs' ns' C F']; subst.
  - exact I.
  - destruct H as (a & b & -> & H). destruct C as (x & y & ->).
    simpl. exists (a ++ x), (y ++ b). split.
    + now rewrite !append_assoc.
    + apply InOrder_left. now apply IH.
Qed.

Lemma count_app c (a b : string) : count c (a ++ b) = count c a + count c b.
Proof. induction a as [|x a IH]; simpl; [reflexivity | rewrite IH; lia]. Qed.

End StrFacts.

Example repr_record {U : Py.interpreter} :
Py.repr (Py.List [Py.Dict [("Building_name", Py.Str "Sol Acres");
                           ("Price", Py.Str "S$ 480,000")];
                  Py.Dict [("ok", Py.Bool true); ("n", Py.Int (-3))]])
= "[{'Building_name': 'Sol Acres', 'Price': 'S$ 480,000'}, {'ok': True, 'n': -3}]".
Proof. reflexivity. Qed.

Example repr_quotes {U : Py.interpreter} :
Py.repr_str "King's Road" = String Py.dquote ("King's Road" ++ String Py.dquote "").
Proof. reflexivity. Qed.

Example lower_city {U : Py.interpreter} : Py.lower "Downtown Core" = "downtown core".
Proof. reflexivity. Qed.

(** *** [str.lower] on and around ASCII text *)

Lemma lower_from_ascii_run {U : Py.interpreter} (h : string) :
  Py.is_ascii h = true ->
  forall before s,
  exists before',
    Py.lower_from before "" (h ++ s)
    = Str.map Py.lower_char h ++ Py.lower_from before' "" s.
Proof.
  induction h as [|c h IH]; intros A before s.
  - now exists before.
  - cbn [Py.is_ascii] in A. apply andb_prop in A. destruct A as [C A].
    cbn [append Py.lower_from Py.lower_flush Str.map]. rewrite C.
    match goal with
    | |- context [Py.lower_from ?b "" (h ++ s)] =>
        destruct (IH A b s) as (before' & ->)
    end.
    now exists before'.
Qed.

(** The lower case of ASCII text is letter by letter, whatever the
    interpreter. *)
Lemma lower_ascii {U : Py.interpreter} (h : string) :
  Py.is_ascii h = true -> Py.lower h = Str.map Py.lower_char h.
Proof.
  intros A. unfold Py.lower.
  destruct (lower_from_ascii_run h A "" "") as (before' & E).
  rewrite !StrFacts.append_nil_r in E. now rewrite E.
Qed.

Lemma lower_from_app {U : Py.interpreter} (a : string) :
  forall before run s,
  exists x before' run',
    Py.lower_from before run (a ++ s) = x ++ Py.lower_from before' run' s.
Proof.
  induction a as [|c a IH]; intros before run s.
  - now exists "", before, run.
  - cbn [append Py.lower_from]. destruct (Py.is_ascii_char c).
    + match goal with
      | |- context [Py.lower_from ?b "" (a ++ s)] =>
          destruct (IH b "" s) as (x & before' & run' & ->)
      end.
      exists (Py.lower_flush before run (String c (a ++ s))
              ++ String (Py.lower_char c) x), before', run'.
      now rewrite StrFacts.append_assoc.
    + apply IH.
Qed.

Lemma lower_from_ascii {U : Py.interpreter} (h : string) :
  Py.is_ascii h = true ->
  forall before run s,
  exists y before' run',
    Py.lower_from before run (h ++ s)
    = y ++ Str.map Py.lower_char h ++ Py.lower_from before' run' s.
Proof.
  intros A before run s. destruct h as [|c h].
  - now exists "", before, run.
  - cbn [Py.is_ascii] in A. apply andb_prop in A. destruct A as [C A].
    cbn [append Py.lower_from Str.map]. rewrite C.
    match goal with
    | |- context [Py.lower_from ?b "" (h ++ s)] =>
        destruct (lower_from_ascii_run h A b s) as (before' & ->)
    end.
    now exists (Py.lower_flush before run (String c (h ++ s))), before', "".
Qed.

(** ASCII strings found in order in a text are found in order, in lower
    case, in the lower case of the text. *)
Lemma InOrder_lower {U : Py.interpreter} (hs : list string) :
  Forall (fun h => Py.is_ascii h = true) hs ->
  forall s before run,
  Str.InOrder hs s ->
  Str.InOrder (map (Str.map Py.lower_char) hs) (Py.lower_from before run s).
Proof.
  induction 1 as [|h hs A _ IH]; intros s before run H; [exact I|].
  destruct H as (a & b & -> & H).
  destruct (lower_from_app a before run (h ++ b)) as (x & b1 & r1 & ->).
  destruct (lower_from_ascii h A b1 r1 b) as (y & b2 & r2 & ->).
  cbn [map Str.InOrder].
  exists (x ++ y), (Py.lower_from b2 r2 b). split.
  - now rewrite !StrFacts.append_assoc.
  - now apply IH.
Qed.

(** ** Decimal text *)

Lemma string_of_uint_no_newline (d : Decimal.uint) :
  Str.count newline (NilEmpty.string_of_uint d) = 0.
Proof. induction d; simpl; auto. Qed.

Lemma str_int_no_newline (z : Z) : Str.count newline (Py.str_int z) = 0.
Proof.
  unfold Py.str_int, NilZero.string_of_int, NilZero.string_of_uint.
  destruct (Z.to_int z) as [d|d]; destruct d; simpl;
    auto using string_of_uint_no_newline.
Qed.

(** ** Running [find_properties] *)

Section Run.

Context {U : Py.interpreter}.
Variable self : PropertyFindingAgent.
Variables (city : string) (max_price : Z).
Variables (property_category property_type : string).
Variables (min_size max_size bedrooms : option Z).

Local Abbreviation the_urls code :=
  (request_urls city max_price min_size max_size bedrooms code).
Local Abbreviation the_prompt :=
  (request_prompt city max_price property_category property_type
     min_size max_size bedrooms).
Local Abbreviation the_urls_line code :=
  (urls_line city max_price min_size max_size bedrooms code).
Local Abbreviation the_run :=
  (run (find_properties self city max_price property_category property_type
          min_size max_size bedrooms)).

(** An unmapped category ends the run at once. *)
Lemma find_properties_unmapped (e : exn) :
  pro_type property_category property_type = Raise e ->
  the_run = (Raise e, []).
Proof.
  intros H. unfold run, find_properties, bind, lift. now rewrite H.
Qed.

(** Every run with a mapped category, by the answers of the two services. *)
Lemma find_properties_mapped (code : Py.value) :
  pro_type property_category property_type = Return code ->
  the_run
  = match firecrawl self (the_urls code) the_prompt with
    | Raise e =>
        (Raise e,
         [Print (the_urls_line code);
          FirecrawlExtract (the_urls code) the_prompt])
    | Return raw_response =>
        match properties raw_response with
        | Raise e =>
            (Raise e,
             [Print (the_urls_line code);
              FirecrawlExtract (the_urls code) the_prompt;
              Print ("Raw Property Response: " ++ Py.str raw_response)])
        | Return records =>
            let message :=
              analysis_message records property_category property_type
                max_price in
            (agent self message,
             [Print (the_urls_line code);
              FirecrawlExtract (the_urls code) the_prompt;
              Print ("Raw Property Response: " ++ Py.str raw_response);
              Print ("Processed Properties: " ++ Py.str records);
              AgentRun message])
        end
    end.
Proof.
  intros H.
  unfold run, find_properties, bind, lift, print, firecrawl_extract,
    agent_run, ret.
  rewrite H. fold (the_urls code). fold the_prompt.
  fold (the_urls_line code). cbn [app].
  destruct (firecrawl self (the_urls code) the_prompt)
    as [raw_response|e]; [|reflexivity].
  cbn [app]. destruct (properties raw_response) as [records|e];
    [|reflexivity].
  cbn [app]. destruct (agent self _); reflexivity.
Qed.

End Run.


(** ** The category/type mapper *)

(** C2. For category Residential the mapper returns "H", "N" and "L" for
    the types HDB, Condo and Landed and "H" for any other type; for
    category Commercial it returns "com" whatever the type. *)
Theorem pro_type_codes (property_type : string) :
  pro_type "Residential" "HDB" = Return (Py.Str "H") /\
  pro_type "Residential" "Condo" = Return (Py.Str "N") /\
  pro_type "Residential" "Landed" = Return (Py.Str "L") /\
  (property_type <> "HDB" -> property_type <> "Condo" ->
   property_type <> "Landed" ->
   pro_type "Residential" property_type = Return (Py.Str "H")) /\
  pro_type "Commercial" property_type = Return (Py.Str "com").
Proof.
  repeat split; try reflexivity.
  intros HH HC HL. unfold pro_type, property_map, Py.get.
  cbn [Py.lookup]. rewrite String.eqb_refl. cbn [Py.lookup].
  apply String.eqb_neq in HH, HC, HL.
  rewrite (String.eqb_sym "HDB"), HH, (String.eqb_sym "Condo"), HC,
    (String.eqb_sym "Landed"), HL.
  reflexivity.
Qed.

Lemma pro_type_codes_witness :
  "Bungalow" <> "HDB" /\ "Bungalow" <> "Condo" /\ "Bungalow" <> "Landed" /\
  pro_type "Residential" "Bungalow" = Return (Py.Str "H").
Proof.
  assert (H1 : "Bungalow" <> "HDB") by discriminate.
  assert (H2 : "Bungalow" <> "Condo") by discriminate.
  assert (H3 : "Bungalow" <> "Landed") by discriminate.
  refine (conj H1 (conj H2 (conj H3 _))).
  exact (proj1 (proj2 (proj2 (proj2 (pro_type_codes "Bungalow")))) H1 H2 H3).
Defined.

(** The mapper fails exactly on the categories that are not keys of
    [property_map]. *)
Lemma pro_type_unmapped (property_category property_type : string) :
  property_category <> "Residential" -> property_category <> "Commercial" ->
  pro_type property_category property_type = Raise (KeyError property_category).
Proof.
  intros HR HC. unfold pro_type, property_map. cbn [Py.lookup].
  apply String.eqb_neq in HR, HC.
  rewrite (String.eqb_sym "Residential"), HR, (String.eqb_sym "Commercial"), HC.
  reflexivity.
Qed.

(** C10. With a category that is neither "Residential" nor "Commercial",
    [find_properties] raises the key-lookup error of [property_map] and its
    trace is empty: no remote call was made (nor anything printed). *)
Theorem find_properties_unknown_category {U : Py.interpreter}
  (self : PropertyFindingAgent) (city : string) (max_price : Z)
  (property_category property_type : string)
  (min_size max_size bedrooms : option Z) :
  property_category <> "Residential" -> property_category <> "Commercial" ->
  run (find_properties self city max_price property_category property_type
         min_size max_size bedrooms)
  = (Raise (KeyError property_category), []) /\
  existsb is_remote_call
    (snd (run (find_properties self city max_price property_category
                 property_type min_size max_size bedrooms))) = false.
Proof.
  intros HR HC.
  rewrite (find_properties_unmapped self city max_price property_category
             property_type min_size max_size bedrooms
             (KeyError property_category)).
  - split; reflexivity.
  - now apply pro_type_unmapped.
Qed.

Lemma find_properties_unknown_category_witness :
  "Industrial" <> "Residential" /\ "Industrial" <> "Commercial" /\
  run (find_properties timed_out_agent "Punggol" 500000 "Industrial" "HDB"
         None None None)
  = (Raise (KeyError "Industrial"), []).
Proof.
  assert (H1 : "Industrial" <> "Residential") by discriminate.
  assert (H2 : "Industrial" <> "Commercial") by discriminate.
  refine (conj H1 (conj H2 _)).
  exact (proj1 (find_properties_unknown_category timed_out_agent "Punggol"
                  500000 "Industrial" "HDB" None None None H1 H2)).
Defined.


(** ** The extraction prompt *)

(** Both sides of an equation between concatenations, flattened. *)
Ltac str_norm :=
  repeat first [ rewrite StrFacts.append_assoc | progress cbn [append] ].
Ltac str_eq :=
  str_norm;
  first [ reflexivity
        | rewrite ?StrFacts.append_nil_r; str_norm; reflexivity ].

Lemma optional_line_newlines (label : string) (filter : option Z)
  (suffix : string) :
  Str.count newline label = 0 -> Str.count newline suffix = 0 ->
  Str.count newline (optional_line label filter suffix) = lines_added filter.
Proof.
  intros Hl Hs. unfold optional_line, lines_added.
  destruct (Py.truthy_opt_int filter) eqn:T; [|reflexivity].
  destruct filter as [z|]; [|discriminate].
  cbn [Str.count Py.str_opt_int]. change (Ascii.eqb newline newline) with true.
  rewrite !StrFacts.count_app, Hl, Hs, str_int_no_newline. reflexivity.
Qed.

Lemma prompt_unfold {U : Py.interpreter}
  (property_category : string) (type_prompt : Py.value)
  (city : string) (max_price : Z) (min_size max_size bedrooms : option Z) :
  prompt property_category type_prompt city max_price min_size max_size bedrooms
  = prompt_template property_category type_prompt city max_price
    ++ optional_line "Minimum Size" min_size " sq ft"
    ++ optional_line "Maximum Size" max_size " sq ft"
    ++ optional_line "Number of Bedrooms" bedrooms "".
Proof.
  unfold prompt, optional_line.
  destruct (Py.truthy_opt_int min_size), (Py.truthy_opt_int max_size),
    (Py.truthy_opt_int bedrooms); str_eq.
Qed.

(** C3 (amended). The prompt is its template followed by one line for each
    optional filter that passes the truth test (present and not zero), in
    the order minimum size, maximum size, bedrooms: each such filter adds
    exactly one newline-started line, and nothing is added when the three
    filters are absent. *)
Theorem prompt_optional_lines {U : Py.interpreter} (property_category : string)
  (type_prompt : Py.value) (city : string) (max_price : Z)
  (min_size max_size bedrooms : option Z) :
  let template :=
    prompt_template property_category type_prompt city max_price in
  let p :=
    prompt property_category type_prompt city max_price
      min_size max_size bedrooms in
  p = template
      ++ optional_line "Minimum Size" min_size " sq ft"
      ++ optional_line "Maximum Size" max_size " sq ft"
      ++ optional_line "Number of Bedrooms" bedrooms "" /\
  Str.count newline p
  = Str.count newline template
    + lines_added min_size + lines_added max_size + lines_added bedrooms /\
  prompt property_category type_prompt city max_price None None None = template.
Proof.
  intros template p. subst template p. split; [apply prompt_unfold|]. split.
  - rewrite prompt_unfold, !StrFacts.count_app,
      !optional_line_newlines by reflexivity.
    lia.
  - reflexivity.
Qed.

(** C3 as stated fails: a bedroom count of 0 is present, yet the prompt is
    the bare template and has no line more. *)
Lemma prompt_zero_bedrooms_adds_no_line :
  present (Some 0%Z) = 1 /\
  prompt "Residential" (property_type_prompt "HDB") "Punggol" 500000
    None None (Some 0%Z)
  = punggol_template /\
  Str.count newline
    (prompt "Residential" (property_type_prompt "HDB") "Punggol" 500000
       None None (Some 0%Z))
  <> Str.count newline punggol_template
     + present None + present None + present (Some 0%Z).
Proof.
  split; [reflexivity|]. split; [reflexivity|].
  vm_compute. discriminate.
Qed.

(** C9. A filter given as 0 fails the truth test: the prompt is the one
    built with that filter absent, for each of the three filters. *)
Theorem prompt_zero_filter_as_absent {U : Py.interpreter}
  (property_category : string)
  (type_prompt : Py.value) (city : string) (max_price : Z)
  (min_size max_size bedrooms : option Z) :
  prompt property_category type_prompt city max_price
    (Some 0%Z) max_size bedrooms
  = prompt property_category type_prompt city max_price None max_size bedrooms /\
  prompt property_category type_prompt city max_price
    min_size (Some 0%Z) bedrooms
  = prompt property_category type_prompt city max_price min_size None bedrooms /\
  prompt property_category type_prompt city max_price
    min_size max_size (Some 0%Z)
  = prompt property_category type_prompt city max_price min_size max_size None /\
  optional_line "Number of Bedrooms" (Some 0%Z) "" = "".
Proof. repeat split. Qed.


(** ** The search URL *)

Lemma lower_char_letter (c : ascii) : Py.lower_char c = lowercase_letter c.
Proof. destruct c as [[] [] [] [] [] [] [] []]; reflexivity. Qed.

Lemma map_lower_char (s : string) :
  Str.map Py.lower_char s = Str.map lowercase_letter s.
Proof.
  induction s as [|c s IH]; cbn [Str.map]; [reflexivity|].
  now rewrite IH, lower_char_letter.
Qed.

(** An ASCII stretch of a text is in its lower case letter by letter. *)
Lemma lower_has_ascii_stretch {U : Py.interpreter} (a h b : string) :
  Py.is_ascii h = true ->
  Str.Contains (Py.lower (a ++ h ++ b)) (Str.map lowercase_letter h).
Proof.
  intros A. unfold Py.lower.
  destruct (lower_from_app a "" "" (h ++ b)) as (x & b1 & r1 & ->).
  destruct (lower_from_ascii h A b1 r1 b) as (y & b2 & r2 & ->).
  rewrite map_lower_char. exists (x ++ y), (Py.lower_from b2 r2 b).
  now rewrite !StrFacts.append_assoc.
Qed.

Lemma decimal_value_str_int (z : Z) : decimal_value (Py.str_int z) = Some z.
Proof.
  unfold decimal_value, Py.str_int. rewrite NilZero.isi.
  - cbn [option_map]. now rewrite DecimalZ.of_to.
  - destruct z; cbn [Z.to_int]; try discriminate.
    intros H. inversion H as [E]. now apply Unsigned.to_uint_nonnil in E.
  - destruct z; cbn [Z.to_int]; try discriminate.
    intros H. inversion H as [E]. now apply Unsigned.to_uint_nonnil in E.
Qed.

(** C5. For every city and every maximum price, an [int] or a [float], the
    one URL of a search contains the lower-cased city and the literal
    price, as the values of its [_freetextDisplay] and [maxPrice]
    parameters.  The lower-cased city has every ASCII stretch of the city
    with its capital letters A-Z turned into a-z and nothing else changed
    (so an ASCII city is lower-cased letter by letter), the text of an
    [int] price is the decimal numeral of that integer, and the text of a
    [float] price is the one the interpreter prints. *)
Theorem url_has_location_and_price {U : Py.interpreter} (city : string)
  (max_price : Py.number) (min_size max_size bedrooms : option Z)
  (code : Py.value) :
  exists url,
    request_urls city max_price min_size max_size bedrooms code = [url] /\
    Str.Contains url (Py.lower city) /\
    Str.Contains url (Py.format max_price) /\
    Str.Contains url ("&_freetextDisplay=" ++ Py.lower city ++ "&") /\
    Str.Contains url ("&maxPrice=" ++ Py.format max_price ++ "&") /\
    (Py.is_ascii city = true ->
     Py.lower city = Str.map lowercase_letter city) /\
    (forall a h b,
       city = a ++ h ++ b -> Py.is_ascii h = true ->
       Str.Contains (Py.lower city) (Str.map lowercase_letter h)) /\
    match max_price with
    | Py.Integer z => decimal_value (Py.format max_price) = Some z
    | Py.Real x => Py.format max_price = Py.float_repr (Py.binary64 x)
    end.
Proof.
  eexists. split; [reflexivity|].
  split; [|split; [|split; [|split; [|split; [|split]]]]].
  - do 3 apply StrFacts.Contains_left. exact (StrFacts.Contains_mid "" _ _).
  - apply StrFacts.Contains_left. exact (StrFacts.Contains_mid "" _ _).
  - eexists
      ("https://www.propertyguru.com.sg/property-for-sale?listingType=sale&page=1&isCommercial=false&maxPrice="
       ++ Py.format max_price ++ "&hdbEstate=1"), _.
    str_eq.
  - eexists
      "https://www.propertyguru.com.sg/property-for-sale?listingType=sale&page=1&isCommercial=false", _.
    str_eq.
  - intros A. now rewrite (lower_ascii city A), map_lower_char.
  - intros a h b -> A. now apply lower_has_ascii_stretch.
  - destruct max_price as [z|x]; [apply decimal_value_str_int | reflexivity].
Qed.

Lemma url_has_location_and_price_witness :
  exists url,
    request_urls "Downtown Core" (Py.Integer 500000) None None None
      (Py.Str "H") = [url] /\
    Str.Contains url "&_freetextDisplay=downtown core&" /\
    Str.Contains url "&maxPrice=500000&" /\
    decimal_value "500000" = Some 500000%Z.
Proof.
  destruct (url_has_location_and_price "Downtown Core" (Py.Integer 500000)
              None None None (Py.Str "H"))
    as (url & E & _ & _ & L & P & A & _ & D).
  exists url. split; [exact E|].
  rewrite (A eq_refl) in L.
  split; [exact L|]. split; [exact P | exact D].
Defined.

(** C7. An optional filter that is absent is not dropped from the URL: its
    query parameter is there, with the text [None] as its value. *)
Theorem url_keeps_absent_filters {U : Py.interpreter}
  (city : string) (max_price : Z)
  (min_size max_size bedrooms : option Z) (code : Py.value) :
  exists url,
    request_urls city max_price min_size max_size bedrooms code = [url] /\
    (bedrooms = None -> Str.Contains url "&bedrooms=None&minSize=") /\
    (min_size = None -> Str.Contains url "&minSize=None&maxSize=") /\
    (max_size = None -> Str.Contains url "&maxSize=None&propertyTypeGroup=").
Proof.
  eexists. split; [reflexivity|]. split; [|split]; intros ->.
  - do 3 apply StrFacts.Contains_left.
    exists (Py.lower city), (Py.str_opt_int min_size ++ "&maxSize="
              ++ Py.str_opt_int max_size ++ "&propertyTypeGroup=" ++ Py.str code).
    str_eq.
  - do 5 apply StrFacts.Contains_left.
    exists (Py.str_opt_int bedrooms), (Py.str_opt_int max_size
              ++ "&propertyTypeGroup=" ++ Py.str code).
    str_eq.
  - do 7 apply StrFacts.Contains_left.
    exists (Py.str_opt_int min_size), (Py.str code).
    str_eq.
Qed.

Lemma url_keeps_absent_filters_witness :
  exists url,
    request_urls "Punggol" 500000 None None None (Py.Str "H") = [url] /\
    Str.Contains url "&bedrooms=None&minSize=" /\
    Str.Contains url "&minSize=None&maxSize=" /\
    Str.Contains url "&maxSize=None&propertyTypeGroup=".
Proof.
  destruct (url_keeps_absent_filters "Punggol" 500000 None None None
              (Py.Str "H")) as (url & E & Hb & Hmin & Hmax).
  exists url.
  exact (conj E (conj (Hb eq_refl) (conj (Hmin eq_refl) (Hmax eq_refl)))).
Defined.


(** ** The message to the completion service *)

(** The headers are the section names of the specification in upper case,
    after a pictogram. *)
Example section_headers_names {U : Py.interpreter} :
  map (fun h => Py.lower (header_text h)) section_headers
  = map Py.lower section_names.
Proof. vm_compute. reflexivity. Qed.

Lemma analysis_message_headers {U : Py.interpreter} (records : Py.value)
  (property_category property_type : string) (max_price : Z) :
  Str.InOrder section_headers
    (analysis_message records property_category property_type max_price).
Proof.
  unfold analysis_message, section_headers.
  do 10 apply StrFacts.InOrder_left.
  eapply StrFacts.InOrder_find_app; [lazy; reflexivity|].
  do 2 apply StrFacts.InOrder_left.
  apply StrFacts.in_order_sound. vm_compute. reflexivity.
Qed.

(** The records are embedded right under the line that announces them. *)
Lemma analysis_message_embeds {U : Py.interpreter} (records : Py.value)
  (property_category property_type : string) (max_price : Z) :
  Str.Contains
    (analysis_message records property_category property_type max_price)
    ("Properties Found in json format:
            " ++ Py.str records ++ String newline "").
Proof.
  unfold analysis_message, Str.Contains.
  eexists "As a real estate expert, analyze these properties and market trends:

            ", _.
  str_eq.
Qed.

(** Read without regard to letter case, the message has the five section
    names of the specification in order. *)
Lemma analysis_message_names {U : Py.interpreter} (records : Py.value)
  (property_category property_type : string) (max_price : Z) :
  Str.InOrder (map Py.lower section_names)
    (Py.lower
       (analysis_message records property_category property_type max_price)).
Proof.
  assert (E : map Py.lower section_names
              = map (Str.map Py.lower_char) (map header_text section_headers))
    by (vm_compute; reflexivity).
  rewrite E. unfold Py.lower. apply InOrder_lower.
  - unfold section_headers. cbn [map].
    repeat (apply Forall_cons; [vm_compute; reflexivity|]). apply Forall_nil.
  - apply (StrFacts.InOrder_parts section_headers);
      [|apply analysis_message_headers].
    unfold section_headers. cbn [map].
    repeat (apply Forall2_cons;
            [apply StrFacts.contains_spec; vm_compute; reflexivity|]).
    apply Forall2_nil.
Qed.

(** C4. Whatever the inputs and the answers of the services, a message
    sent to the completion service contains the five section headers
    (selected properties, best value analysis, location insights,
    recommendations, negotiation tips), one after the other in that order:
    the header lines as the template writes them, and hence the five names
    when letter case is ignored. *)
Theorem sent_message_has_headers {U : Py.interpreter}
  (self : PropertyFindingAgent) (city : string)
  (max_price : Z) (property_category property_type : string)
  (min_size max_size bedrooms : option Z) (message : string) :
  In (AgentRun message)
     (snd (run (find_properties self city max_price property_category
                  property_type min_size max_size bedrooms))) ->
  Str.InOrder section_headers message /\
  Str.InOrder (map Py.lower section_names) (Py.lower message).
Proof.
  enough (H : In (AgentRun message)
                (snd (run (find_properties self city max_price
                             property_category property_type
                             min_size max_size bedrooms))) ->
              exists records,
                message = analysis_message records property_category
                            property_type max_price).
  { intros I. destruct (H I) as (records & ->).
    split; [apply analysis_message_headers | apply analysis_message_names]. }
  destruct (pro_type property_category property_type) as [code|e] eqn:P.
  - rewrite (find_properties_mapped self city max_price property_category
               property_type min_size max_size bedrooms code P).
    destruct (firecrawl self _ _) as [raw_response|e].
    + destruct (properties raw_response) as [records|e]; cbn [snd In];
        intros H; repeat (destruct H as [H|H]; try discriminate H);
        try contradiction.
      inversion H. now exists records.
    + cbn [snd In]. intros H.
      repeat (destruct H as [H|H]; try discriminate H). contradiction.
  - rewrite (find_properties_unmapped self city max_price property_category
               property_type min_size max_size bedrooms e P).
    intros [].
Qed.

Lemma sent_message_has_headers_witness :
  In (AgentRun (analysis_message (Py.List []) "Residential" "HDB" 500000))
     (snd (punggol_search failed_extraction_agent)) /\
  Str.InOrder section_headers
    (analysis_message (Py.List []) "Residential" "HDB" 500000) /\
  Str.InOrder (map Py.lower section_names)
    (Py.lower (analysis_message (Py.List []) "Residential" "HDB" 500000)).
Proof.
  assert (H : In (AgentRun
                    (analysis_message (Py.List []) "Residential" "HDB" 500000))
                 (snd (punggol_search failed_extraction_agent))).
  { vm_compute. do 4 right. left. reflexivity. }
  split; [exact H|].
  exact (sent_message_has_headers failed_extraction_agent "Punggol" 500000
           "Residential" "HDB" None None None _ H).
Defined.

(** ** The pipeline *)

(** The scenario of a search for HDB flats in Punggol under 500000 SGD with
    no optional filter: the request made to the extraction service. *)
Example punggol_request :
  exists prompt, exists rest,
    snd (punggol_search failed_extraction_agent)
    = Print "URLS: ['https://www.propertyguru.com.sg/property-for-sale?listingType=sale&page=1&isCommercial=false&maxPrice=500000&hdbEstate=1&_freetextDisplay=punggol&bedrooms=None&minSize=None&maxSize=None&propertyTypeGroup=H']"
      :: FirecrawlExtract
           ["https://www.propertyguru.com.sg/property-for-sale?listingType=sale&page=1&isCommercial=false&maxPrice=500000&hdbEstate=1&_freetextDisplay=punggol&bedrooms=None&minSize=None&maxSize=None&propertyTypeGroup=H"]
           prompt
      :: rest.
Proof. do 2 eexists. vm_compute. reflexivity. Qed.

(** C6. When the extraction service answers with success = false the run
    goes on: the records are the empty list, which is printed, and the
    message embedding [[]] is sent to the completion service, whose answer
    is the result of the run. *)
Theorem failed_extraction_still_summarized {U : Py.interpreter}
  (self : PropertyFindingAgent)
  (city : string) (max_price : Z) (property_category property_type : string)
  (min_size max_size bedrooms : option Z)
  (code : Py.value) (response : list (string * Py.value)) :
  pro_type property_category property_type = Return code ->
  firecrawl self
    (request_urls city max_price min_size max_size bedrooms code)
    (request_prompt city max_price property_category property_type
       min_size max_size bedrooms)
  = Return (Py.Dict response) ->
  Py.lookup "success" response = Some (Py.Bool false) ->
  let message :=
    analysis_message (Py.List []) property_category property_type max_price in
  properties (Py.Dict response) = Return (Py.List []) /\
  run (find_properties self city max_price property_category property_type
         min_size max_size bedrooms)
  = (agent self message,
     [Print (urls_line city max_price min_size max_size bedrooms code);
      FirecrawlExtract
        (request_urls city max_price min_size max_size bedrooms code)
        (request_prompt city max_price property_category property_type
           min_size max_size bedrooms);
      Print ("Raw Property Response: " ++ Py.str (Py.Dict response));
      Print "Processed Properties: []";
      AgentRun message]) /\
  Str.Contains message
    ("Properties Found in json format:
            []" ++ String newline "").
Proof.
  intros P F S message.
  assert (E : properties (Py.Dict response) = Return (Py.List [])).
  { unfold properties, Py.get. now rewrite S. }
  split; [exact E|]. split.
  - rewrite (find_properties_mapped self city max_price property_category
               property_type min_size max_size bedrooms code P), F, E.
    reflexivity.
  - exact (analysis_message_embeds (Py.List []) property_category
             property_type max_price).
Qed.

Lemma failed_extraction_still_summarized_witness :
  fst (punggol_search failed_extraction_agent) = Return "REPORT" /\
  In (AgentRun (analysis_message (Py.List []) "Residential" "HDB" 500000))
     (snd (punggol_search failed_extraction_agent)) /\
  In (Print "Processed Properties: []")
     (snd (punggol_search failed_extraction_agent)).
Proof.
  destruct (failed_extraction_still_summarized failed_extraction_agent
              "Punggol" 500000 "Residential" "HDB" None None None (Py.Str "H")
              [("success", Py.Bool false)] eq_refl eq_refl eq_refl)
    as (_ & R & _).
  unfold punggol_search. rewrite R. split; [reflexivity|].
  cbn [snd In]. split.
  - do 4 right. left. reflexivity.
  - do 3 right. left. reflexivity.
Defined.


(** ** The records taken from the extraction response *)

(** A successful envelope without its [data] entry is not turned into an
    empty record list: the subscript raises. *)
Example properties_without_data :
  properties (Py.Dict [("success", Py.Bool true)]) = Raise (KeyError "data").
Proof. reflexivity. Qed.

(** C1 as stated fails: an exception of the extraction call is not caught.
    It ends the run, which yields no record list, prints no processed
    records and never calls the completion service. *)
Lemma transport_error_is_not_caught :
  fst (punggol_search timed_out_agent) = Raise (ServiceError "timed out") /\
  existsb is_agent_run (snd (punggol_search timed_out_agent)) = false /\
  ~ In (Print "Processed Properties: []") (snd (punggol_search timed_out_agent)).
Proof.
  split; [reflexivity|]. split; [reflexivity|].
  vm_compute. intros [H|[H|[]]]; discriminate H.
Qed.

(** C1 (amended). The records are the empty list when the response is not
    a dict, when its success entry is false, missing or otherwise fails the
    truth test, and when success holds and the data dict has no
    [properties] entry; they are the value of that entry, as supplied, when
    success holds and the entry exists.  An exception raised by the
    extraction call is not caught: the run ends with it right after the
    call. *)
Theorem extraction_records {U : Py.interpreter}
  (self : PropertyFindingAgent) (city : string)
  (max_price : Z) (property_category property_type : string)
  (min_size max_size bedrooms : option Z) (code : Py.value) :
  pro_type property_category property_type = Return code ->
  (forall raw_response,
     Py.isinstance_dict raw_response = false ->
     properties raw_response = Return (Py.List [])) /\
  (forall response,
     Py.truthy (Py.get response "success" Py.None) = false ->
     properties (Py.Dict response) = Return (Py.List [])) /\
  (forall response data,
     Py.truthy (Py.get response "success" Py.None) = true ->
     Py.lookup "data" response = Some (Py.Dict data) ->
     Py.lookup "properties" data = None ->
     properties (Py.Dict response) = Return (Py.List [])) /\
  (forall response data records,
     Py.truthy (Py.get response "success" Py.None) = true ->
     Py.lookup "data" response = Some (Py.Dict data) ->
     Py.lookup "properties" data = Some records ->
     properties (Py.Dict response) = Return records) /\
  (forall e,
     firecrawl self
       (request_urls city max_price min_size max_size bedrooms code)
       (request_prompt city max_price property_category property_type
          min_size max_size bedrooms)
     = Raise e ->
     run (find_properties self city max_price property_category property_type
            min_size max_size bedrooms)
     = (Raise e,
        [Print (urls_line city max_price min_size max_size bedrooms code);
         FirecrawlExtract
           (request_urls city max_price min_size max_size bedrooms code)
           (request_prompt city max_price property_category property_type
              min_size max_size bedrooms)])).
Proof.
  intros P. split; [|split; [|split; [|split]]].
  - intros [| | | | |] H; try reflexivity. discriminate H.
  - intros response S. unfold properties. now rewrite S.
  - intros response data S D N. unfold properties.
    rewrite S, D. unfold Py.get. now rewrite N.
  - intros response data records S D R. unfold properties.
    rewrite S, D. unfold Py.get. now rewrite R.
  - intros e F.
    rewrite (find_properties_mapped self city max_price property_category
               property_type min_size max_size bedrooms code P), F.
    reflexivity.
Qed.

Lemma extraction_records_witness :
  properties (Py.Str "Bad Gateway") = Return (Py.List []) /\
  properties failed_response = Return (Py.List []) /\
  properties (Py.Dict [("success", Py.Bool true); ("data", Py.Dict [])])
  = Return (Py.List []) /\
  properties (response_with [sample_record "Block 1"])
  = Return (Py.List [sample_record "Block 1"]) /\
  fst (punggol_search timed_out_agent) = Raise (ServiceError "timed out").
Proof.
  destruct (extraction_records timed_out_agent "Punggol" 500000
              "Residential" "HDB" None None None (Py.Str "H") eq_refl)
    as (H1 & H2 & H3 & H4 & H5).
  split; [exact (H1 (Py.Str "Bad Gateway") eq_refl)|].
  split; [exact (H2 [("success", Py.Bool false)] eq_refl)|].
  split; [exact (H3 [("success", Py.Bool true); ("data", Py.Dict [])] []
                    eq_refl eq_refl eq_refl)|].
  split; [exact (H4 [("success", Py.Bool true);
                     ("data", Py.Dict [("properties",
                                        Py.List [sample_record "Block 1"])]);
                     ("status", Py.Str "completed");
                     ("expiresAt", Py.Str "2025-01-01T00:00:00.000Z")]
                    [("properties", Py.List [sample_record "Block 1"])]
                    (Py.List [sample_record "Block 1"])
                    eq_refl eq_refl eq_refl)|].
  unfold punggol_search. now rewrite (H5 (ServiceError "timed out") eq_refl).
Defined.

(** C8 as stated fails: eleven records supplied, eleven records returned. *)
Lemma eleven_records_returned :
  properties (response_with eleven_records) = Return (Py.List eleven_records) /\
  length eleven_records = 11 /\
  ~ length eleven_records <= 10.
Proof.
  split; [reflexivity|]. split; [reflexivity|]. cbn. lia.
Qed.

(** C8 (amended). The records returned for a successful response are the
    list the service supplied under [data.properties], entry by entry in
    the same order and in the same number: nothing is cut at 10, a limit
    that is only written in the prompt. *)
Theorem supplied_records_kept {U : Py.interpreter}
  (response data : list (string * Py.value))
  (records : list Py.value) :
  Py.truthy (Py.get response "success" Py.None) = true ->
  Py.lookup "data" response = Some (Py.Dict data) ->
  Py.lookup "properties" data = Some (Py.List records) ->
  exists returned,
    properties (Py.Dict response) = Return (Py.List returned) /\
    length returned = length records /\
    (forall i, nth_error returned i = nth_error records i) /\
    (forall property_category type_prompt city max_price
            min_size max_size bedrooms,
       Str.Contains
         (prompt property_category type_prompt city max_price
            min_size max_size bedrooms)
         "MAXIMUM 10.").
Proof.
  intros S D R. exists records. split; [|split; [|split]].
  - unfold properties. rewrite S, D. unfold Py.get. now rewrite R.
  - reflexivity.
  - reflexivity.
  - intros. rewrite prompt_unfold. apply StrFacts.Contains_right.
    unfold prompt_template. do 16 apply StrFacts.Contains_left.
    apply StrFacts.contains_spec. vm_compute. reflexivity.
Qed.

Lemma supplied_records_kept_witness :
  exists returned,
    properties (response_with eleven_records) = Return (Py.List returned) /\
    length returned = 11.
Proof.
  destruct (supplied_records_kept
              [("success", Py.Bool true);
               ("data", Py.Dict [("properties", Py.List eleven_records)]);
               ("status", Py.Str "completed");
               ("expiresAt", Py.Str "2025-01-01T00:00:00.000Z")]
              [("properties", Py.List eleven_records)] eleven_records
              eq_refl eq_refl eq_refl) as (returned & E & L & _).
  exists returned. split; [exact E | exact L].
Defined.

(** ** Further properties of [find_properties] *)

Lemma pro_type_raises_key_error (property_category property_type : string)
  (e : exn) :
  pro_type property_category property_type = Raise e ->
  e = KeyError property_category.
Proof.
  unfold pro_type.
  destruct (Py.lookup property_category property_map) as [[| | | | |]|];
    intros H; inversion H; reflexivity.
Qed.

(** X1. A run makes at most two remote calls, the extraction first.  With
    a category that is no key of the map it makes none and raises the
    key-lookup error.  With a mapped category it makes the extraction
    request, and only that one when the extraction raises or the reading
    of its response raises, the run ending with that exception; otherwise
    it goes on with exactly one completion request, for the message built
    from the records, whose answer, reply or exception, is the result of
    the run as it is. *)
Theorem find_properties_remote_calls {U : Py.interpreter}
  (self : PropertyFindingAgent) (city : string) (max_price : Z)
  (property_category property_type : string)
  (min_size max_size bedrooms : option Z) :
  (property_category <> "Residential" -> property_category <> "Commercial" ->
   filter is_remote_call
     (snd (run (find_properties self city max_price property_category
                  property_type min_size max_size bedrooms))) = [] /\
   fst (run (find_properties self city max_price property_category
               property_type min_size max_size bedrooms))
   = Raise (KeyError property_category)) /\
  (forall code urls prompt,
     pro_type property_category property_type = Return code ->
     urls = request_urls city max_price min_size max_size bedrooms code ->
     prompt = request_prompt city max_price property_category property_type
                min_size max_size bedrooms ->
     (forall e,
        firecrawl self urls prompt = Raise e ->
        filter is_remote_call
          (snd (run (find_properties self city max_price property_category
                       property_type min_size max_size bedrooms)))
        = [FirecrawlExtract urls prompt] /\
        fst (run (find_properties self city max_price property_category
                    property_type min_size max_size bedrooms)) = Raise e) /\
     (forall raw_response e,
        firecrawl self urls prompt = Return raw_response ->
        properties raw_response = Raise e ->
        filter is_remote_call
          (snd (run (find_properties self city max_price property_category
                       property_type min_size max_size bedrooms)))
        = [FirecrawlExtract urls prompt] /\
        fst (run (find_properties self city max_price property_category
                    property_type min_size max_size bedrooms)) = Raise e) /\
     (forall raw_response records,
        firecrawl self urls prompt = Return raw_response ->
        properties raw_response = Return records ->
        filter is_remote_call
          (snd (run (find_properties self city max_price property_category
                       property_type min_size max_size bedrooms)))
        = [FirecrawlExtract urls prompt;
           AgentRun (analysis_message records property_category
                       property_type max_price)] /\
        fst (run (find_properties self city max_price property_category
                    property_type min_size max_size bedrooms))
        = agent self (analysis_message records property_category
                        property_type max_price))).
Proof.
  split.
  - intros NR NC.
    rewrite (find_properties_unmapped self city max_price property_category
               property_type min_size max_size bedrooms
               (KeyError property_category)
               (pro_type_unmapped property_category property_type NR NC)).
    split; reflexivity.
  - intros code urls prompt P -> ->.
    rewrite (find_properties_mapped self city max_price property_category
               property_type min_size max_size bedrooms code P).
    split; [|split].
    + intros e F. rewrite F. split; reflexivity.
    + intros raw_response e F R. rewrite F, R. split; reflexivity.
    + intros raw_response records F R. rewrite F, R. split; reflexivity.
Qed.

Lemma find_properties_remote_calls_witness :
  (filter is_remote_call
     (snd (run (find_properties timed_out_agent "Punggol" 500000
                  "Industrial" "HDB" None None None))) = [] /\
   filter is_remote_call (snd (punggol_search timed_out_agent))
   = [FirecrawlExtract
        (request_urls "Punggol" 500000 None None None (Py.Str "H"))
        (request_prompt "Punggol" 500000 "Residential" "HDB"
           None None None)]) /\
  filter is_remote_call (snd (punggol_search failed_extraction_agent))
  = [FirecrawlExtract
       (request_urls "Punggol" 500000 None None None (Py.Str "H"))
       (request_prompt "Punggol" 500000 "Residential" "HDB" None None None);
     AgentRun (analysis_message (Py.List []) "Residential" "HDB" 500000)] /\
  fst (punggol_search failed_extraction_agent) = Return "REPORT".
Proof.
  split; [split|].
  - exact (proj1 (proj1 (find_properties_remote_calls timed_out_agent
                           "Punggol" 500000 "Industrial" "HDB"
                           None None None)
                    ltac:(discriminate) ltac:(discriminate))).
  - exact (proj1 (proj1 (proj2 (find_properties_remote_calls timed_out_agent
                                  "Punggol" 500000 "Residential" "HDB"
                                  None None None)
                           (Py.Str "H") _ _ eq_refl eq_refl eq_refl)
                    (ServiceError "timed out") eq_refl)).
  - exact (proj2 (proj2 (proj2 (find_properties_remote_calls
                                  failed_extraction_agent
                                  "Punggol" 500000 "Residential" "HDB"
                                  None None None)
                           (Py.Str "H") _ _ eq_refl eq_refl eq_refl))
             failed_response (Py.List []) eq_refl eq_refl).
Defined.

(** X2. A response that passes the success test but has no [data] entry, or
    whose [data] is not a dict, is not read as an empty record list: the
    run raises the key-lookup error, respectively the attribute error of
    [.get], right after printing the response, and the completion service
    is not called. *)
Theorem malformed_success_response_raises {U : Py.interpreter}
  (self : PropertyFindingAgent)
  (city : string) (max_price : Z) (property_category property_type : string)
  (min_size max_size bedrooms : option Z)
  (code : Py.value) (response : list (string * Py.value)) :
  pro_type property_category property_type = Return code ->
  firecrawl self
    (request_urls city max_price min_size max_size bedrooms code)
    (request_prompt city max_price property_category property_type
       min_size max_size bedrooms)
  = Return (Py.Dict response) ->
  Py.truthy (Py.get response "success" Py.None) = true ->
  (Py.lookup "data" response = None \/
   exists data,
     Py.lookup "data" response = Some data /\ Py.isinstance_dict data = false) ->
  run (find_properties self city max_price property_category property_type
         min_size max_size bedrooms)
  = (Raise (match Py.lookup "data" response with
            | None => KeyError "data"
            | Some _ => AttributeError "get"
            end),
     [Print (urls_line city max_price min_size max_size bedrooms code);
      FirecrawlExtract
        (request_urls city max_price min_size max_size bedrooms code)
        (request_prompt city max_price property_category property_type
           min_size max_size bedrooms);
      Print ("Raw Property Response: " ++ Py.str (Py.Dict response))]).
Proof.
  intros P F S D.
  rewrite (find_properties_mapped self city max_price property_category
             property_type min_size max_size bedrooms code P), F.
  unfold properties. rewrite S.
  destruct D as [D|(data & D & I)]; rewrite D; [reflexivity|].
  destruct data; try reflexivity. discriminate I.
Qed.

Lemma malformed_success_response_raises_witness :
  fst (punggol_search
         (constant_agent (Return (Py.Dict [("success", Py.Bool true)]))
            (Return "REPORT")))
  = Raise (KeyError "data") /\
  fst (punggol_search
         (constant_agent
            (Return (Py.Dict [("success", Py.Bool true); ("data", Py.None)]))
            (Return "REPORT")))
  = Raise (AttributeError "get").
Proof.
  split; unfold punggol_search.
  - now rewrite (malformed_success_response_raises
                   (constant_agent
                      (Return (Py.Dict [("success", Py.Bool true)]))
                      (Return "REPORT"))
                   "Punggol" 500000 "Residential" "HDB" None None None
                   (Py.Str "H") [("success", Py.Bool true)]
                   eq_refl eq_refl eq_refl (or_introl eq_refl)).
  - now rewrite (malformed_success_response_raises
                   (constant_agent
                      (Return (Py.Dict [("success", Py.Bool true);
                                        ("data", Py.None)]))
                      (Return "REPORT"))
                   "Punggol" 500000 "Residential" "HDB" None None None
                   (Py.Str "H") [("success", Py.Bool true); ("data", Py.None)]
                   eq_refl eq_refl eq_refl
                   (or_intror (ex_intro _ Py.None (conj eq_refl eq_refl)))).
Defined.


(** X3. The code sent in the URL and the wording used in the prompt agree
    on the property type: "H" goes with HDB Flats, "N" with Condominiums
    and "L" with Landed Houses, and a type that is none of the three falls
    back to "H" and HDB Flats together. *)
Theorem type_code_matches_type_text (property_type : string) :
  (property_type <> "Condo" /\ property_type <> "Landed" /\
   pro_type "Residential" property_type = Return (Py.Str "H") /\
   property_type_prompt property_type = Py.Str "HDB Flats") \/
  (property_type = "Condo" /\
   pro_type "Residential" property_type = Return (Py.Str "N") /\
   property_type_prompt property_type = Py.Str "Condominiums") \/
  (property_type = "Landed" /\
   pro_type "Residential" property_type = Return (Py.Str "L") /\
   property_type_prompt property_type = Py.Str "Landed Houses").
Proof.
  destruct (String.eqb_spec property_type "Condo") as [->|NC];
    [right; left; repeat split|].
  destruct (String.eqb_spec property_type "Landed") as [->|NL];
    [right; right; repeat split|].
  left. split; [exact NC|]. split; [exact NL|].
  apply String.eqb_neq in NC, NL.
  unfold pro_type, property_type_prompt, property_map, Py.get.
  cbn [Py.lookup]. rewrite String.eqb_refl. cbn [Py.lookup].
  rewrite (String.eqb_sym "Condo"), NC, (String.eqb_sym "Landed"), NL.
  destruct ("HDB" =? property_type); split; reflexivity.
Qed.

Lemma property_type_prompt_other (property_type : string) :
  property_type <> "Condo" -> property_type <> "Landed" ->
  property_type_prompt property_type = Py.Str "HDB Flats".
Proof.
  intros NC NL. apply String.eqb_neq in NC, NL.
  unfold property_type_prompt, Py.get. cbn [Py.lookup].
  rewrite (String.eqb_sym "Condo"), NC, (String.eqb_sym "Landed"), NL.
  now destruct ("HDB" =? property_type).
Qed.

(** X4. For every property type other than the text "HDB Flats" itself,
    the two requests of a search name the type differently.  The type
    line of the extraction prompt carries the wording of the type, which
    is HDB Flats for a type that is none of HDB, Condo and Landed, while
    the type line of the message to the completion service carries the
    type as it was given, and the two texts are not the same. *)
Theorem unknown_type_prompt_and_message {U : Py.interpreter} (city : string)
  (max_price : Z) (property_category property_type : string)
  (min_size max_size bedrooms : option Z) (records : Py.value) :
  property_type <> "HDB Flats" ->
  exists asked,
    property_type_prompt property_type = Py.Str asked /\
    (property_type <> "HDB" -> property_type <> "Condo" ->
     property_type <> "Landed" -> asked = "HDB Flats") /\
    Str.Contains
      (request_prompt city max_price property_category property_type
         min_size max_size bedrooms)
      ("- Property Type: " ++ asked ++ " only") /\
    Str.Contains
      (analysis_message records property_category property_type max_price)
      ("- Property Type: " ++ property_type ++ String newline "") /\
    asked <> property_type.
Proof.
  intros NF.
  assert (T : exists asked,
             property_type_prompt property_type = Py.Str asked /\
             (property_type <> "Condo" -> property_type <> "Landed" ->
              asked = "HDB Flats") /\
             asked <> property_type).
  { destruct (String.eqb_spec property_type "Condo") as [->|NC].
    { exists "Condominiums". split; [reflexivity|].
      split; [intros C; now contradiction C | discriminate]. }
    destruct (String.eqb_spec property_type "Landed") as [->|NL].
    { exists "Landed Houses". split; [reflexivity|].
      split; [intros _ L; now contradiction L | discriminate]. }
    exists "HDB Flats". split; [now apply property_type_prompt_other|].
    split; [reflexivity|]. intros E. now apply NF. }
  destruct T as (asked & E & D & N). exists asked.
  split; [exact E|]. split; [intros _; exact D|].
  split; [|split; [|exact N]].
  - unfold request_prompt. rewrite prompt_unfold, E.
    apply StrFacts.Contains_right.
    unfold prompt_template. do 10 apply StrFacts.Contains_left.
    eexists " properties only
        ", _.
    str_eq.
  - unfold analysis_message. do 4 apply StrFacts.Contains_left.
    eexists "
               ", _.
    str_eq.
Qed.

Lemma unknown_type_prompt_and_message_witness :
  Str.Contains
    (request_prompt "Punggol" 500000 "Residential" "Bungalow" None None None)
    "- Property Type: HDB Flats only" /\
  Str.Contains
    (analysis_message (Py.List []) "Residential" "Bungalow" 500000)
    ("- Property Type: Bungalow" ++ String newline "") /\
  "HDB Flats" <> "Bungalow".
Proof.
  destruct (unknown_type_prompt_and_message "Punggol" 500000 "Residential"
              "Bungalow" None None None (Py.List []) ltac:(discriminate))
    as (asked & _ & D & P & M & N).
  rewrite (D ltac:(discriminate) ltac:(discriminate) ltac:(discriminate))
    in P, N.
  exact (conj P (conj M N)).
Defined.

Lemma append_cancel_l (a x y : string) : a ++ x = a ++ y -> x = y.
Proof.
  induction a as [|c a IH]; simpl; intros H; [exact H|].
  inversion H. now apply IH.
Qed.

(** X5. A filter given as 0 is told apart from an absent one in the URL,
    which carries its value, but not in the prompt, which is the one of a
    search without that filter; this holds for each of the three filters. *)
Theorem zero_filter_in_url_not_in_prompt {U : Py.interpreter}
  (city : string) (max_price : Z)
  (property_category property_type : string)
  (min_size max_size bedrooms : option Z) (code : Py.value) :
  (request_urls city max_price (Some 0%Z) max_size bedrooms code
   <> request_urls city max_price None max_size bedrooms code /\
   request_prompt city max_price property_category property_type
     (Some 0%Z) max_size bedrooms
   = request_prompt city max_price property_category property_type
       None max_size bedrooms) /\
  (request_urls city max_price min_size (Some 0%Z) bedrooms code
   <> request_urls city max_price min_size None bedrooms code /\
   request_prompt city max_price property_category property_type
     min_size (Some 0%Z) bedrooms
   = request_prompt city max_price property_category property_type
       min_size None bedrooms) /\
  (request_urls city max_price min_size max_size (Some 0%Z) code
   <> request_urls city max_price min_size max_size None code /\
   request_prompt city max_price property_category property_type
     min_size max_size (Some 0%Z)
   = request_prompt city max_price property_category property_type
       min_size max_size None).
Proof.
  repeat match goal with |- _ /\ _ => split end; try reflexivity;
    unfold request_urls, urls; intros H;
    apply (f_equal (hd "")) in H; cbn [hd] in H;
    repeat apply append_cancel_l in H;
    change (Py.str_opt_int (Some 0%Z)) with "0" in H;
    change (Py.str_opt_int None) with "None" in H;
    cbn [append] in H; discriminate H.
Qed.

(** X6. A search in the category Commercial still asks the listing site
    for non-commercial listings: its one URL starts with the fixed query
    up to [isCommercial=false] and ends with the property type group
    [com]. *)
Theorem commercial_search_url {U : Py.interpreter}
  (self : PropertyFindingAgent) (city : string)
  (max_price : Z) (property_type : string)
  (min_size max_size bedrooms : option Z)
  (urls : list string) (prompt : string) :
  In (FirecrawlExtract urls prompt)
     (snd (run (find_properties self city max_price "Commercial"
                  property_type min_size max_size bedrooms))) ->
  exists middle,
    urls =
    ["https://www.propertyguru.com.sg/property-for-sale?listingType=sale&page=1&isCommercial=false&maxPrice="
     ++ middle ++ "&propertyTypeGroup=com"].
Proof.
  rewrite (find_properties_mapped self city max_price "Commercial"
             property_type min_size max_size bedrooms (Py.Str "com")
             eq_refl).
  intros H.
  assert (E : urls = request_urls city max_price min_size max_size bedrooms
                       (Py.Str "com")).
  { destruct (firecrawl self _ _) as [raw_response|e];
      [destruct (properties raw_response) as [records|e]|];
      cbn [snd In] in H;
      repeat (destruct H as [H|H]; try discriminate H);
      try contradiction; now inversion H. }
  subst urls. unfold request_urls, urls.
  exists (Py.str_int max_price ++ "&hdbEstate=1&_freetextDisplay="
          ++ Py.lower city ++ "&bedrooms=" ++ Py.str_opt_int bedrooms
          ++ "&minSize=" ++ Py.str_opt_int min_size
          ++ "&maxSize=" ++ Py.str_opt_int max_size).
  f_equal. str_eq.
Qed.

Lemma commercial_search_url_witness :
  exists middle,
    request_urls "Punggol" 500000 None None None (Py.Str "com") =
    ["https://www.propertyguru.com.sg/property-for-sale?listingType=sale&page=1&isCommercial=false&maxPrice="
     ++ middle ++ "&propertyTypeGroup=com"].
Proof.
  apply (commercial_search_url failed_extraction_agent "Punggol" 500000 "HDB"
           None None None _
           (request_prompt "Punggol" 500000 "Commercial" "HDB" None None None)).
  vm_compute. right. left. reflexivity.
Defined.

(** ** The page *)

Lemma main_unfold {U : Py.interpreter}
  (rt : App.runtime) (f : App.inputs) (s : App.session_state) :
  App.main rt f s
  = (fst (App.sidebar rt f s),
     (App.page rt f s
      ++ (if App.start_search f
          then App.search rt f (fst (App.sidebar rt f s))
          else []))%list).
Proof.
  unfold App.main, App.page. destruct (App.sidebar rt f s) as [s' side].
  destruct (App.start_search f); cbn [fst snd];
    [reflexivity | now rewrite app_nil_r].
Qed.

Lemma sidebar_static (rt : App.runtime) (f : App.inputs) (s : App.session_state) :
  existsb App.is_search_element (snd (App.sidebar rt f s)) = false.
Proof.
  unfold App.sidebar.
  destruct (App.environ_firecrawl_key f) as [fk|],
           (App.environ_openai_key f) as [ok|];
    repeat (cbn [App.truthy_opt_str negb orb andb];
            match goal with
            | |- context [(?a =? "")] => destruct (a =? "")
            end);
    reflexivity.
Qed.

Lemma page_static (rt : App.runtime) (f : App.inputs) (s : App.session_state) :
  existsb App.is_search_element (App.page rt f s) = false.
Proof.
  unfold App.page. cbn [existsb App.is_search_element].
  now rewrite existsb_app, sidebar_static.
Qed.

(** X7. A run without a click on the button shows the sidebar and the form
    and nothing of a search: no spinner, no message, no report, and no
    effect of [find_properties], hence no remote call. *)
Theorem main_without_click {U : Py.interpreter}
  (rt : App.runtime) (f : App.inputs)
  (s : App.session_state) :
  App.start_search f = false ->
  snd (App.main rt f s) = App.page rt f s /\
  existsb App.is_search_element (snd (App.main rt f s)) = false.
Proof.
  intros B. rewrite main_unfold, B. cbn [snd]. rewrite app_nil_r.
  split; [reflexivity | apply page_static].
Qed.

Lemma main_agent {U : Py.interpreter}
  (rt : App.runtime) (f : App.inputs) (s : App.session_state) :
  App.session_property_agent (fst (App.main rt f s))
  = App.session_property_agent (fst (App.sidebar rt f s)).
Proof. now rewrite main_unfold. Qed.

(** X8. A click in a session that holds no agent shows the request to
    enter the API keys and nothing else of a search, whatever the city:
    the keys are checked before the city. *)
Theorem search_without_agent {U : Py.interpreter}
  (rt : App.runtime) (f : App.inputs)
  (s : App.session_state) :
  App.start_search f = true ->
  App.session_property_agent (fst (App.main rt f s)) = None ->
  snd (App.main rt f s)
  = (App.page rt f s
     ++ [App.Error "⚠️ Please enter your API keys in the sidebar first!"])%list.
Proof.
  intros B A. rewrite main_agent in A. rewrite main_unfold, B. cbn [snd].
  unfold App.search. now rewrite A.
Qed.

Lemma search_without_agent_witness :
  snd (App.main (sample_runtime timed_out_agent)
         (sample_inputs None "" true) App.empty_session)
  = (App.page (sample_runtime timed_out_agent)
       (sample_inputs None "" true) App.empty_session
     ++ [App.Error "⚠️ Please enter your API keys in the sidebar first!"])%list.
Proof.
  exact (search_without_agent (sample_runtime timed_out_agent)
           (sample_inputs None "" true) App.empty_session eq_refl eq_refl).
Defined.

(** X9. A click with an agent in the session and an empty city shows the
    request to enter a city and nothing else of a search: no remote call
    is made. *)
Theorem search_without_city {U : Py.interpreter}
  (rt : App.runtime) (f : App.inputs)
  (s : App.session_state) (property_agent : PropertyFindingAgent) :
  App.start_search f = true ->
  App.session_property_agent (fst (App.main rt f s)) = Some property_agent ->
  App.city f = "" ->
  snd (App.main rt f s)
  = (App.page rt f s ++ [App.Error "⚠️ Please enter a city name!"])%list.
Proof.
  intros B A C. rewrite main_agent in A. rewrite main_unfold, B. cbn [snd].
  unfold App.search. now rewrite A, C.
Qed.

Lemma search_without_city_witness :
  snd (App.main (sample_runtime timed_out_agent)
         (sample_inputs (Some "key") "" true) App.empty_session)
  = (App.page (sample_runtime timed_out_agent)
       (sample_inputs (Some "key") "" true) App.empty_session
     ++ [App.Error "⚠️ Please enter a city name!"])%list.
Proof.
  exact (search_without_city (sample_runtime timed_out_agent)
           (sample_inputs (Some "key") "" true) App.empty_session
           timed_out_agent eq_refl eq_refl eq_refl).
Defined.

(** X10. An exception raised by [find_properties] does not leave the page
    script: after the spinner and the effects the search had until then,
    the page shows one error element with the text of the exception, and
    no success element. *)
Theorem search_error_displayed {U : Py.interpreter}
  (rt : App.runtime) (f : App.inputs)
  (s : App.session_state) (property_agent : PropertyFindingAgent)
  (e : exn) (trace : list event) :
  App.start_search f = true ->
  App.session_property_agent (fst (App.main rt f s)) = Some property_agent ->
  App.city f <> "" ->
  run (find_properties property_agent (App.city f) (App.max_price f)
         (App.property_category f) (App.property_type f)
         (App.min_size f) (App.max_size f) (App.bedrooms f))
  = (Raise e, trace) ->
  snd (App.main rt f s)
  = (App.page rt f s
     ++ App.Spinner "🔍 Searching for properties..."
        :: map App.Effect trace
     ++ [App.Error ("❌ An error occurred: " ++ App.exception_text rt e)])%list.
Proof.
  intros B A C R. rewrite main_agent in A. rewrite main_unfold, B. cbn [snd].
  unfold App.search. apply String.eqb_neq in C. now rewrite A, C, R.
Qed.

Lemma search_error_displayed_witness :
  exists shown,
    snd (App.main (sample_runtime timed_out_agent)
           (sample_inputs (Some "key") "Punggol" true) App.empty_session)
    = (shown ++ [App.Error "❌ An error occurred: timed out"])%list.
Proof.
  eexists.
  rewrite (search_error_displayed (sample_runtime timed_out_agent)
             (sample_inputs (Some "key") "Punggol" true) App.empty_session
             timed_out_agent (ServiceError "timed out")
             (snd (punggol_search timed_out_agent))
             eq_refl eq_refl ltac:(discriminate) eq_refl).
  rewrite app_comm_cons, app_assoc. reflexivity.
Defined.

(** X11. A search that returns its report shows the success element, the
    heading and the report, and then fails on the location trends: the
    agent has no [get_location_trends], so the run ends with the error
    element of that attribute error. *)
Theorem search_report_then_error {U : Py.interpreter}
  (rt : App.runtime) (f : App.inputs)
  (s : App.session_state) (property_agent : PropertyFindingAgent)
  (property_results : string) (trace : list event) :
  App.start_search f = true ->
  App.session_property_agent (fst (App.main rt f s)) = Some property_agent ->
  App.city f <> "" ->
  run (find_properties property_agent (App.city f) (App.max_price f)
         (App.property_category f) (App.property_type f)
         (App.min_size f) (App.max_size f) (App.bedrooms f))
  = (Return property_results, trace) ->
  snd (App.main rt f s)
  = (App.page rt f s
     ++ App.Spinner "🔍 Searching for properties..."
        :: map App.Effect trace
     ++ [App.Success "✅ Property search completed!";
         App.Subheader "🏘️ Property Recommendations";
         App.Markdown property_results;
         App.Divider;
         App.Spinner "📊 Analyzing location trends...";
         App.Error ("❌ An error occurred: "
                    ++ App.exception_text rt
                         (AttributeError "get_location_trends"))])%list.
Proof.
  intros B A C R. rewrite main_agent in A. rewrite main_unfold, B. cbn [snd].
  unfold App.search. apply String.eqb_neq in C. rewrite A, C, R.
  cbn [App.get_location_trends]. unfold App.error_occurred.
  rewrite <- app_assoc. reflexivity.
Qed.

Lemma search_report_then_error_witness :
  exists shown,
    snd (App.main (sample_runtime failed_extraction_agent)
           (sample_inputs (Some "key") "Punggol" true) App.empty_session)
    = (shown
       ++ [App.Markdown "REPORT";
           App.Divider;
           App.Spinner "📊 Analyzing location trends...";
           App.Error "❌ An error occurred: 'PropertyFindingAgent' object has no attribute 'get_location_trends'"])%list.
Proof.
  eexists.
  rewrite (search_report_then_error (sample_runtime failed_extraction_agent)
             (sample_inputs (Some "key") "Punggol" true) App.empty_session
             failed_extraction_agent "REPORT"
             (snd (punggol_search failed_extraction_agent))
             eq_refl eq_refl ltac:(discriminate) eq_refl).
  rewrite app_comm_cons, app_assoc.
  change [App.Success "✅ Property search completed!";
          App.Subheader "🏘️ Property Recommendations";
          App.Markdown "REPORT"; App.Divider;
          App.Spinner "📊 Analyzing location trends...";
          App.Error ("❌ An error occurred: "
                     ++ App.exception_text
                          (sample_runtime failed_extraction_agent)
                          (AttributeError "get_location_trends"))]
    with ([App.Success "✅ Property search completed!";
           App.Subheader "🏘️ Property Recommendations"]
          ++ [App.Markdown "REPORT"; App.Divider;
              App.Spinner "📊 Analyzing location trends...";
              App.Error "❌ An error occurred: 'PropertyFindingAgent' object has no attribute 'get_location_trends'"])%list.
  rewrite app_assoc. reflexivity.
Defined.

Lemma page_not_search_element (rt : App.runtime) (f : App.inputs)
  (s : App.session_state) (x : App.element) :
  In x (App.page rt f s) -> App.is_search_element x = false.
Proof.
  intros I. destruct (App.is_search_element x) eqn:E; [|reflexivity].
  pose proof (page_static rt f s) as P.
  assert (T : existsb App.is_search_element (App.page rt f s) = true)
    by (apply existsb_exists; now exists x).
  congruence.
Qed.

(** X12. No run of the page ever shows the location trends: neither the
    success element of the location analysis nor its expander appears,
    whatever the inputs, the session and the answers of the services. *)
Theorem location_trends_never_shown {U : Py.interpreter}
  (rt : App.runtime) (f : App.inputs)
  (s : App.session_state) :
  ~ In (App.Success "✅ Location analysis completed!") (snd (App.main rt f s)) /\
  (forall label, ~ In (App.Expander label) (snd (App.main rt f s))).
Proof.
  assert (H : forall x,
             In x (snd (App.main rt f s)) ->
             x <> App.Success "✅ Location analysis completed!" /\
             forall label, x <> App.Expander label).
  { intros x I. rewrite main_unfold in I. cbn [snd] in I.
    apply in_app_or in I. destruct I as [I|I].
    - apply page_not_search_element in I.
      split; [|intros label]; intros ->; discriminate I.
    - destruct (App.start_search f); [|contradiction].
      unfold App.search in I.
      destruct (App.session_property_agent _) as [property_agent|].
      + destruct (App.city f =? "").
        * destruct I as [<-|[]]. split; [|intros label]; discriminate.
        * destruct (run _) as [[property_results|e] trace];
            cbn [App.get_location_trends] in I;
            repeat (apply in_app_or in I; destruct I as [I|I]);
            try (destruct I as [<-|I]; [split; [|intros label]; discriminate|]);
            try (apply in_map_iff in I; destruct I as (ev & <- & _);
                 split; [|intros label]; discriminate);
            repeat (destruct I as [<-|I];
                    [split; [|intros label]; discriminate|]);
            try contradiction.
      + destruct I as [<-|[]]. split; [|intros label]; discriminate. }
  split; [|intros label]; intros I; apply H in I; destruct I as (N & E).
  - now apply N.
  - now apply (E label).
Qed.

Lemma sidebar_agent (rt : App.runtime) (f : App.inputs)
  (s : App.session_state) :
  App.session_property_agent (fst (App.sidebar rt f s))
  = (if negb (App.key_in_use (App.environ_firecrawl_key f)
                (App.typed_firecrawl_key f) =? "")
        && negb (App.key_in_use (App.environ_openai_key f)
                   (App.typed_openai_key f) =? "")
     then Some (App.new_agent rt
                  (App.key_in_use (App.environ_firecrawl_key f)
                     (App.typed_firecrawl_key f))
                  (App.key_in_use (App.environ_openai_key f)
                     (App.typed_openai_key f))
                  (App.model_id f))
     else App.session_property_agent s).
Proof.
  unfold App.sidebar, App.key_in_use.
  destruct (App.environ_firecrawl_key f) as [fk|],
           (App.environ_openai_key f) as [ok|];
    repeat (cbn [App.truthy_opt_str negb orb andb];
            match goal with
            | |- context [(?a =? "")] => destruct (a =? "") eqn:?
            end);
    cbn [App.truthy_opt_str negb orb andb fst App.session_property_agent];
    try reflexivity; congruence.
Qed.

(** X13. After a run the session holds the agent built from the two keys
    in use and the selected model when both keys are not empty, a key
    being the environment variable if it is set and not empty and the text
    typed in the sidebar otherwise; when a key is missing the agent of the
    session, if any, is left as it was. *)
Theorem main_agent_from_keys {U : Py.interpreter}
  (rt : App.runtime) (f : App.inputs)
  (s : App.session_state) :
  App.session_property_agent (fst (App.main rt f s))
  = (if negb (App.key_in_use (App.environ_firecrawl_key f)
                (App.typed_firecrawl_key f) =? "")
        && negb (App.key_in_use (App.environ_openai_key f)
                   (App.typed_openai_key f) =? "")
     then Some (App.new_agent rt
                  (App.key_in_use (App.environ_firecrawl_key f)
                     (App.typed_firecrawl_key f))
                  (App.key_in_use (App.environ_openai_key f)
                     (App.typed_openai_key f))
                  (App.model_id f))
     else App.session_property_agent s).
Proof. rewrite main_agent. apply sidebar_agent. Qed.

(** X14. With both keys set and not empty in the environment, the page
    does not ask for them: the sidebar has the model selection only, and
    the agent is built from the keys of the environment, whatever is typed
    for the keys. *)
Theorem environment_keys_not_asked {U : Py.interpreter}
  (rt : App.runtime) (f : App.inputs)
  (s : App.session_state) (firecrawl_key openai_key : string) :
  App.environ_firecrawl_key f = Some firecrawl_key -> firecrawl_key <> "" ->
  App.environ_openai_key f = Some openai_key -> openai_key <> "" ->
  snd (App.main rt f s)
  = (App.PageConfig "Real Estate Agent for Singapore 🇸🇬 property market"
     :: [App.Title "🔑 API Configuration";
         App.Subheader "🤖 Model Selection";
         App.Selectbox "Choose OpenAI Model"]
     ++ App.form
     ++ (if App.start_search f
         then App.search rt f (fst (App.sidebar rt f s))
         else []))%list /\
  App.session_property_agent (fst (App.main rt f s))
  = Some (App.new_agent rt firecrawl_key openai_key (App.model_id f)).
Proof.
  intros F NF O NO. apply String.eqb_neq in NF, NO. split.
  - rewrite main_unfold. cbn [snd]. unfold App.page.
    assert (E : snd (App.sidebar rt f s)
                = [App.Title "🔑 API Configuration";
                   App.Subheader "🤖 Model Selection";
                   App.Selectbox "Choose OpenAI Model"]).
    { unfold App.sidebar. rewrite F, O.
      do 2 (cbn [App.truthy_opt_str negb orb andb]; rewrite ?NF, ?NO).
      reflexivity. }
    rewrite E. cbn [app]. reflexivity.
  - rewrite main_agent, sidebar_agent, F, O. unfold App.key_in_use.
    rewrite NF, NO. cbn [negb andb]. now rewrite NF, NO.
Qed.

Lemma environment_keys_not_asked_witness :
  ~ In (App.TextInput "Firecrawl API Key")
       (snd (App.main (sample_runtime timed_out_agent)
               (sample_inputs (Some "key") "Punggol" false)
               App.empty_session)) /\
  App.session_property_agent
    (fst (App.main (sample_runtime timed_out_agent)
            (sample_inputs (Some "key") "Punggol" false) App.empty_session))
  = Some timed_out_agent.
Proof.
  destruct (environment_keys_not_asked (sample_runtime timed_out_agent)
              (sample_inputs (Some "key") "Punggol" false) App.empty_session
              "key" "key" eq_refl ltac:(discriminate) eq_refl
              ltac:(discriminate)) as (E & A).
  split; [|exact A].
  rewrite E. cbn. intros H.
  repeat (destruct H as [H|H]; [discriminate H|]). exact H.
Defined.

Lemma main_without_click_witness :
  existsb App.is_search_element
    (snd (App.main (sample_runtime timed_out_agent)
            (sample_inputs (Some "key") "Punggol" false) App.empty_session))
  = false.
Proof.
  exact (proj2 (main_without_click (sample_runtime timed_out_agent)
                  (sample_inputs (Some "key") "Punggol" false)
                  App.empty_session eq_refl)).
Defined.

(** Every effect of the search a click starts is on the page. *)
Lemma search_effects_shown {U : Py.interpreter}
  (rt : App.runtime) (f : App.inputs)
  (s : App.session_state) (property_agent : PropertyFindingAgent)
  (ev : event) :
  App.start_search f = true ->
  App.session_property_agent (fst (App.main rt f s)) = Some property_agent ->
  App.city f <> "" ->
  In ev (snd (run (find_properties property_agent (App.city f)
                     (App.max_price f) (App.property_category f)
                     (App.property_type f) (App.min_size f) (App.max_size f)
                     (App.bedrooms f)))) ->
  In (App.Effect ev) (snd (App.main rt f s)).
Proof.
  intros B A C I. rewrite main_agent in A. rewrite main_unfold, B. cbn [snd].
  apply in_or_app. right. unfold App.search.
  apply String.eqb_neq in C. rewrite A, C.
  destruct (run _) as [[property_results|e] trace]; cbn [snd] in I;
    cbn [App.get_location_trends]; right;
    repeat (apply in_or_app; left); now apply in_map.
Qed.

(** X15. The category of the form is one of its two options, Residential
    and Commercial, so a click with an agent and a city always gets as far
    as the extraction service: the request for the lower-cased city and
    the prompt of the form is made, whatever the services answer. *)
Theorem form_search_calls_extraction {U : Py.interpreter}
  (rt : App.runtime) (f : App.inputs)
  (s : App.session_state) (property_agent : PropertyFindingAgent) :
  App.start_search f = true ->
  App.session_property_agent (fst (App.main rt f s)) = Some property_agent ->
  App.city f <> "" ->
  App.property_category f = "Residential" \/
  App.property_category f = "Commercial" ->
  exists code,
    pro_type (App.property_category f) (App.property_type f) = Return code /\
    In (App.Effect
          (FirecrawlExtract
             (request_urls (App.city f) (App.max_price f) (App.min_size f)
                (App.max_size f) (App.bedrooms f) code)
             (request_prompt (App.city f) (App.max_price f)
                (App.property_category f) (App.property_type f)
                (App.min_size f) (App.max_size f) (App.bedrooms f))))
       (snd (App.main rt f s)).
Proof.
  intros B A C K.
  assert (P : exists code,
             pro_type (App.property_category f) (App.property_type f)
             = Return code).
  { destruct K as [-> | ->]; eexists; reflexivity. }
  destruct P as (code & P). exists code. split; [exact P|].
  apply (search_effects_shown rt f s property_agent _ B A C).
  rewrite (find_properties_mapped property_agent (App.city f)
             (App.max_price f) (App.property_category f)
             (App.property_type f) (App.min_size f) (App.max_size f)
             (App.bedrooms f) code P).
  destruct (firecrawl property_agent _ _) as [raw_response|e];
    [destruct (properties raw_response) as [records|e]|];
    cbn [snd In]; right; left; reflexivity.
Qed.

Lemma form_search_calls_extraction_witness :
  In (App.Effect
        (FirecrawlExtract
           (request_urls "Punggol" 500000 None None None (Py.Str "H"))
           (request_prompt "Punggol" 500000 "Residential" "HDB"
              None None None)))
     (snd (App.main (sample_runtime timed_out_agent)
             (sample_inputs (Some "key") "Punggol" true) App.empty_session)).
Proof.
  destruct (form_search_calls_extraction (sample_runtime timed_out_agent)
              (sample_inputs (Some "key") "Punggol" true) App.empty_session
              timed_out_agent eq_refl eq_refl ltac:(discriminate)
              (or_introl eq_refl)) as (code & P & I).
  assert (E : code = Py.Str "H") by (inversion P; reflexivity).
  subst code. exact I.
Defined.
